(** * Scribe: note-processing pipeline, similarity query and SSE event bus

    A shallow embedding of the parts of [app/] that drive a note through its
    processing states: [app/models/note.py], [app/services/note_service.py],
    [app/services/ollama_service.py] (summary/tag parsing),
    [app/tasks/processing_tasks.py], [app/tasks/notification_tasks.py],
    [app/utils/events.py] and the retry route of [app/api/routes/notes.py].

    The database session is a [gmap] from note id to row; every
    [session.commit()] writes the in-memory note object back to its row.
    Wall-clock times are integers.  External services (Whisper transcription,
    the Ollama HTTP endpoints, the JSON decoder, [datetime.fromisoformat],
    the user-settings table) are fields of an [Env] record. *)

From Stdlib Require Import ZArith Strings.Byte.
From stdpp Require Import base list gmap strings pretty sorting.

Open Scope string_scope.

(* ------------------------------------------------------------------ *)
(** ** Data model: [app/models/note.py] *)

Record Note := mkNote {
  note_id : Z;                         (* id *)
  user_id : Z;
  raw_transcript : string;
  summary : option string;
  tag : option string;
  notification_timestamp : option Z;
  audio_path : option string;
  embedding : option (list byte);      (* serialized float32 BLOB *)
  processing_status : string;          (* pending, transcribing, processing, completed, failed *)
  error_message : option string;
  archived : bool;
  created_at : Z;
  updated_at : Z
}.

(** Attribute assignments [note.x = v] on the in-memory object. *)
Definition set_raw_transcript (t : string) (n : Note) : Note :=
  mkNote (note_id n) (user_id n) t (summary n) (tag n) (notification_timestamp n)
    (audio_path n) (embedding n) (processing_status n) (error_message n)
    (archived n) (created_at n) (updated_at n).
Definition set_summary (s : option string) (n : Note) : Note :=
  mkNote (note_id n) (user_id n) (raw_transcript n) s (tag n) (notification_timestamp n)
    (audio_path n) (embedding n) (processing_status n) (error_message n)
    (archived n) (created_at n) (updated_at n).
Definition set_tag (t : option string) (n : Note) : Note :=
  mkNote (note_id n) (user_id n) (raw_transcript n) (summary n) t (notification_timestamp n)
    (audio_path n) (embedding n) (processing_status n) (error_message n)
    (archived n) (created_at n) (updated_at n).
Definition set_notification_timestamp (ts : option Z) (n : Note) : Note :=
  mkNote (note_id n) (user_id n) (raw_transcript n) (summary n) (tag n) ts
    (audio_path n) (embedding n) (processing_status n) (error_message n)
    (archived n) (created_at n) (updated_at n).
Definition set_embedding (e : option (list byte)) (n : Note) : Note :=
  mkNote (note_id n) (user_id n) (raw_transcript n) (summary n) (tag n)
    (notification_timestamp n) (audio_path n) e (processing_status n)
    (error_message n) (archived n) (created_at n) (updated_at n).
Definition set_processing_status (s : string) (n : Note) : Note :=
  mkNote (note_id n) (user_id n) (raw_transcript n) (summary n) (tag n)
    (notification_timestamp n) (audio_path n) (embedding n) s
    (error_message n) (archived n) (created_at n) (updated_at n).
Definition set_error_message (e : option string) (n : Note) : Note :=
  mkNote (note_id n) (user_id n) (raw_transcript n) (summary n) (tag n)
    (notification_timestamp n) (audio_path n) (embedding n) (processing_status n)
    e (archived n) (created_at n) (updated_at n).
Definition set_updated_at (t : Z) (n : Note) : Note :=
  mkNote (note_id n) (user_id n) (raw_transcript n) (summary n) (tag n)
    (notification_timestamp n) (audio_path n) (embedding n) (processing_status n)
    (error_message n) (archived n) (created_at n) t.

(** An APScheduler job: [send_note_notification] at [run_date] with [args=[note_id]]. *)
Record Job := mkJob { job_run_date : Z; job_note : Z }.

(** The process-wide state the code touches. *)
Record World := mkWorld {
  notes : gmap Z Note;                   (* the [notes] table *)
  files : gset string;                   (* files on disk (uploads) *)
  user_queues : gmap Z (list nat);       (* EventManager.user_queues: queue handles *)
  queue_store : gmap nat (list string);  (* contents of each asyncio.Queue *)
  next_queue : nat;                      (* fresh queue handles *)
  scheduler : option (gmap string Job);  (* None: scheduler not initialized *)
  broadcast_calls : list (Z * string * string); (* trace of EventManager.broadcast calls (the [SSE] log lines) *)
  utc_now : Z;                           (* datetime.now(UTC) *)
  local_now : Z                          (* datetime.now() *)
}.

Definition set_notes (m : gmap Z Note) (w : World) : World :=
  mkWorld m (files w) (user_queues w) (queue_store w) (next_queue w) (scheduler w)
    (broadcast_calls w) (utc_now w) (local_now w).
Definition set_files (f : gset string) (w : World) : World :=
  mkWorld (notes w) f (user_queues w) (queue_store w) (next_queue w) (scheduler w)
    (broadcast_calls w) (utc_now w) (local_now w).
Definition set_scheduler (s : option (gmap string Job)) (w : World) : World :=
  mkWorld (notes w) (files w) (user_queues w) (queue_store w) (next_queue w) s
    (broadcast_calls w) (utc_now w) (local_now w).

(** [session.add(note); session.commit()] *)
Definition commit_note (n : Note) (w : World) : World :=
  set_notes (<[note_id n := n]> (notes w)) w.

(** Python truthiness of an optional string. *)
Definition truthy (s : option string) : bool :=
  match s with Some x => negb (String.eqb x "") | None => false end.

Definition nl : string := String (Ascii.ascii_of_nat 10) EmptyString.

(* ------------------------------------------------------------------ *)
(** ** [app/utils/events.py]: EventManager *)

Module EventManager.

Definition set_bus (uq : gmap Z (list nat)) (qs : gmap nat (list string)) (nq : nat)
    (w : World) : World :=
  mkWorld (notes w) (files w) uq qs nq (scheduler w) (broadcast_calls w)
    (utc_now w) (local_now w).

Definition log_call (u : Z) (event_name data : string) (w : World) : World :=
  mkWorld (notes w) (files w) (user_queues w) (queue_store w) (next_queue w)
    (scheduler w) (broadcast_calls w ++ [(u, event_name, data)])%list
    (utc_now w) (local_now w).

(** [await queue.put(message)] *)
Definition queue_put (msg : string) (store : gmap nat (list string)) (q : nat)
    : gmap nat (list string) :=
  <[q := (default [] (store !! q) ++ [msg])%list]> store.

(** [subscribe]: the part that runs when the stream is first pulled:
    a fresh queue is added to the user's set.  Returns the queue handle. *)
Definition subscribe (u : Z) (w : World) : World * nat :=
  let q := next_queue w in
  let qs := default [] (user_queues w !! u) in
  (set_bus (<[u := (qs ++ [q])%list]> (user_queues w)) (<[q := []]> (queue_store w))
     (S q) w, q).

(** The keep-alive frame sent first on every stream. *)
Definition ping : string := ": ping" ++ nl ++ nl.

(** The frames a subscriber on queue [q] has received or will receive from
    what is queued so far: the initial ping, then the queue in FIFO order. *)
Definition frames (w : World) (q : nat) : list string :=
  ping :: default [] (queue_store w !! q).

(** The [finally] block of [subscribe], run when the consumer cancels. *)
Definition unsubscribe (u : Z) (q : nat) (w : World) : World :=
  match user_queues w !! u with
  | Some qs =>
      let qs' := filter (fun x => x <> q) qs in
      match qs' with
      | [] => set_bus (delete u (user_queues w)) (queue_store w) (next_queue w) w
      | _ => set_bus (<[u := qs']> (user_queues w)) (queue_store w) (next_queue w) w
      end
  | None => w
  end.

Definition sse_message (event_name data : string) : string :=
  "event: " ++ event_name ++ nl ++ "data: " ++ data ++ nl ++ nl.

(** [broadcast(user_id, event_name, data)]; both branches write a log line. *)
Definition broadcast (u : Z) (event_name data : string) (w : World) : World :=
  let w := log_call u event_name data w in
  match user_queues w !! u with
  | Some qs =>
      let message := sse_message event_name data in
      set_bus (user_queues w) (foldl (queue_put message) (queue_store w) qs)
        (next_queue w) w
  | None => w
  end.

End EventManager.

(* ------------------------------------------------------------------ *)
(** ** External collaborators *)

(** Outcome of a call that may raise: [Err msg] carries [str(e)]. *)
Inductive result (A : Type) : Type :=
  | Ok (a : A)
  | Err (msg : string).
Arguments Ok {A} a.
Arguments Err {A} msg.

(** JSON values of the fields the summary parser reads, as far as it
    handles them: strings and [null].  Numbers, booleans, lists and objects
    in those fields are outside this model.  A decoded document is an object
    or a value of some other Python type, named by [type(v).__name__]. *)
Inductive jval : Type :=
  | JNull
  | JStr (s : string).

Inductive jdoc : Type :=
  | JObject (fields : list (string * jval))
  | JNonObject (type_name : string).

(** A row of [UserSettings] ([app/models/user.py]): its columns. *)
Record UserSettings := mkUserSettings {
  us_user_id : Z;
  ollama_url : string;
  ollama_model : string;
  ollama_embedding_model : string;
  ollama_api_key : option string;
  us_custom_tags : string
}.

Record Env := mkEnv {
  (** [transcription_service.transcribe_file(path)] *)
  transcribe_file : string -> result string;
  (** [POST /api/generate] of [generate_summary_and_tag]: the
      [data.get("response", "{}")] text, or the HTTP error raised *)
  ollama_generate : string -> list string -> result string;
  (** [json.loads]; [None] is [JSONDecodeError] *)
  json_loads : string -> option jdoc;
  (** [datetime.fromisoformat]; [None] is [ValueError] *)
  fromisoformat : string -> option Z;
  (** [OllamaService.generate_embedding(text)]: serialized vector bytes *)
  generate_embedding : string -> result (list byte);
  (** [get_custom_tags(user_settings.custom_tags)] for a user *)
  custom_tags : Z -> list string;
  (** the user's [UserSettings] row, if any *)
  user_settings : Z -> option UserSettings;
  (** [vec_distance_cosine(a, b)] of sqlite-vec, as an ordered key *)
  vec_distance_cosine : list byte -> list byte -> Z
}.

(* ------------------------------------------------------------------ *)
(** ** [OllamaService.generate_summary_and_tag] *)

Record SummaryResult := mkSummaryResult {
  sr_summary : option string;
  sr_tag : option string;
  sr_notification_timestamp : option Z
}.

(** [dict.get(key)]: [json.loads] keeps the last duplicate key. *)
Definition dict_get (k : string) (d : list (string * jval)) : option jval :=
  foldl (fun acc kv => if String.eqb kv.1 k then Some kv.2 else acc) None d.

Definition jstr (v : jval) : option string :=
  match v with JNull => None | JStr s => Some s end.

Definition lower_ascii (c : Ascii.ascii) : Ascii.ascii :=
  let n := Ascii.nat_of_ascii c in
  if (65 <=? n)%nat && (n <=? 90)%nat then Ascii.ascii_of_nat (n + 32) else c.

(** [str.lower()] on ASCII text.  Python also folds letters outside ASCII,
    which this function leaves as they are: the two agree on ASCII strings. *)
Fixpoint lower (s : string) : string :=
  match s with
  | EmptyString => EmptyString
  | String c s' => String (lower_ascii c) (lower s')
  end.

(** [tag.lower()] matched case-insensitively against the allowed tags. *)
Definition normalize_tag (available_tags : list string) (tag0 : option string)
    : option string :=
  match tag0 with
  | Some t =>
      if negb (String.eqb t "") && negb (bool_decide (available_tags = [])) then
        match find (fun a => String.eqb (lower a) (lower t)) available_tags with
        | Some a => Some a
        | None => Some t
        end
      else Some t
  | None => None
  end.

Definition generate_summary_and_tag (env : Env) (transcript : string)
    (available_tags : list string) : result SummaryResult :=
  match ollama_generate env transcript available_tags with
  | Err e => Err e
  | Ok response_text =>
      match json_loads env response_text with
      | None =>
          (* except json.JSONDecodeError *)
          Ok (mkSummaryResult (Some "") None None)
      | Some (JNonObject tname) =>
          (* result.get on a non-dict raises AttributeError, not caught here *)
          Err ("'" ++ tname ++ "' object has no attribute 'get'")
      | Some (JObject result) =>
          let notification_time :=
            match dict_get "timestamp" result with
            | Some (JStr ts) =>
                if negb (String.eqb ts "") && negb (String.eqb ts "null")
                then fromisoformat env ts else None
            | _ => None
            end in
          let tag0 :=
            match dict_get "tag" result with
            | Some v => jstr v
            | None => head available_tags
            end in
          let summary :=
            match dict_get "summary" result with
            | Some v => jstr v
            | None => Some ""
            end in
          Ok (mkSummaryResult summary (normalize_tag available_tags tag0)
                notification_time)
      end
  end.

(* ------------------------------------------------------------------ *)
(** ** The pipeline's effects: state (world and the in-session note
    object) with Python exceptions.  Mutations made before a [raise] stay,
    as they do on the Python object. *)

Definition PM (A : Type) : Type := World * Note -> (World * Note) * result A.

Global Instance PM_ret : MRet PM := fun A a s => (s, Ok a).
Global Instance PM_bind : MBind PM := fun A B k m s =>
  match m s with
  | (s', Ok a) => k a s'
  | (s', Err e) => (s', Err e)
  end.

Definition raise {A} (msg : string) : PM A := fun s => (s, Err msg).

(** [try: m except Exception as e: h(str(e))] *)
Definition try_except {A} (m : PM A) (h : string -> PM A) : PM A := fun s =>
  match m s with
  | (s', Ok a) => (s', Ok a)
  | (s', Err e) => h e s'
  end.

Definition get_note_obj : PM Note := fun s => (s, Ok s.2).
Definition get_world : PM World := fun s => (s, Ok s.1).
Definition update_note_obj (f : Note -> Note) : PM unit := fun s => ((s.1, f s.2), Ok ()).
Definition update_world (f : World -> World) : PM unit := fun s => ((f s.1, s.2), Ok ()).
Definition lift_result {A} (r : result A) : PM A := fun s => (s, r).

(** [session.add(note); session.commit()] *)
Definition commit : PM unit := fun s => ((commit_note s.2 s.1, s.2), Ok ()).

(** [await event_manager.broadcast(note.user_id, name, data)] *)
Definition broadcast_note (name data : string) : PM unit := fun s =>
  ((EventManager.broadcast (user_id s.2) name data s.1, s.2), Ok ()).

(** [f"note-status-{note.id}"] and [f"note-processed-{note.id}"] *)
Definition status_event (nid : Z) : string := "note-status-" ++ pretty nid.
Definition processed_event (nid : Z) : string := "note-processed-" ++ pretty nid.

(* ------------------------------------------------------------------ *)
(** ** [app/tasks/processing_tasks.py] *)

Record AIResult := mkAIResult {
  ai_summary : option string;
  ai_tag : option string;
  ai_notification_timestamp : option Z;
  ai_embedding : list byte
}.

(** [_process_note_ai] *)
Definition _process_note_ai (env : Env) (n : Note) : result AIResult :=
  let available_tags := custom_tags env (user_id n) in
  match generate_summary_and_tag env (raw_transcript n) available_tags with
  | Err e => Err e
  | Ok summary_result =>
      match generate_embedding env (raw_transcript n) with
      | Err e => Err e
      | Ok emb =>
          Ok (mkAIResult (sr_summary summary_result) (sr_tag summary_result)
                (sr_notification_timestamp summary_result) emb)
      end
  end.

Definition notification_job_id (nid : Z) : string :=
  "note_notification_" ++ pretty nid.

(** [_schedule_notification_if_needed]: a missing scheduler raises
    [RuntimeError], which is caught and logged. *)
Definition _schedule_notification_if_needed (n : Note) (w : World) : World :=
  match notification_timestamp n with
  | Some ts =>
      if Z.ltb (local_now w) ts then
        match scheduler w with
        | Some jobs =>
            set_scheduler
              (Some (<[notification_job_id (note_id n) := mkJob ts (note_id n)]> jobs)) w
        | None => w
        end
      else w
  | None => w
  end.

(** The shared tail of both tasks: AI step, completion, scheduling, events. *)
Definition enrich_and_complete (env : Env) : PM unit :=
  n ← get_note_obj;
  ai_result ← lift_result (_process_note_ai env n);
  update_note_obj (fun n =>
    set_embedding (Some (ai_embedding ai_result))
      (set_notification_timestamp (ai_notification_timestamp ai_result)
        (set_tag (ai_tag ai_result) (set_summary (ai_summary ai_result) n))));;
  w ← get_world;
  update_note_obj (fun n =>
    set_updated_at (utc_now w)
      (set_error_message None (set_processing_status "completed" n)));;
  commit;;
  n ← get_note_obj;
  update_world (_schedule_notification_if_needed n);;
  broadcast_note (status_event (note_id n)) "completed";;
  broadcast_note (processed_event (note_id n)) "completed".

(** The [except Exception as e] block of both tasks. *)
Definition fail_note (e : string) : PM unit :=
  w ← get_world;
  update_note_obj (fun n =>
    set_updated_at (utc_now w)
      (set_error_message (Some e) (set_processing_status "failed" n)));;
  commit;;
  n ← get_note_obj;
  broadcast_note (status_event (note_id n)) "failed".

Definition process_new_note_body (env : Env) : PM unit :=
  update_note_obj (set_processing_status "transcribing");;
  commit;;
  n ← get_note_obj;
  broadcast_note (status_event (note_id n)) "transcribing";;
  w ← get_world;
  (match audio_path n with
   | Some p =>
       if negb (String.eqb p "") && bool_decide (p ∈ files w) then
         transcript ← lift_result (transcribe_file env p);
         update_note_obj (set_raw_transcript transcript)
       else if String.eqb (raw_transcript n) "" then
         raise "No audio file or transcript available"
       else mret ()
   | None =>
       if String.eqb (raw_transcript n) "" then
         raise "No audio file or transcript available"
       else mret ()
   end);;
  update_note_obj (set_processing_status "processing");;
  commit;;
  n ← get_note_obj;
  broadcast_note (status_event (note_id n)) "processing";;
  enrich_and_complete env.

(** [process_new_note(note_id)]: returns the world after the task. *)
Definition process_new_note (env : Env) (nid : Z) (w : World) : World :=
  match notes w !! nid with
  | None => w    (* logger.error(...); return *)
  | Some note => (try_except (process_new_note_body env) fail_note (w, note)).1.1
  end.

Definition reprocess_note_body (env : Env) : PM unit :=
  update_note_obj (set_processing_status "processing");;
  commit;;
  n ← get_note_obj;
  broadcast_note (status_event (note_id n)) "processing";;
  enrich_and_complete env.

(** [reprocess_note(note_id)] *)
Definition reprocess_note (env : Env) (nid : Z) (w : World) : World :=
  match notes w !! nid with
  | None => w
  | Some note =>
      if String.eqb (raw_transcript note) "" then
        commit_note
          (set_error_message (Some "No transcript available")
             (set_processing_status "failed" note)) w
      else (try_except (reprocess_note_body env) fail_note (w, note)).1.1
  end.

(* ------------------------------------------------------------------ *)
(** ** [app/services/note_service.py]: NoteService; [None] is [NotFoundError]. *)

Definition get_note (w : World) (nid uid : Z) : option Note :=
  match notes w !! nid with
  | Some note => if Z.eqb (user_id note) uid then Some note else None
  | None => None
  end.

(** Every row is stored under its own id (the primary key). *)
Definition ids_consistent (w : World) : Prop :=
  map_Forall (fun k n => note_id n = k) (notes w).

Definition update_note (w : World) (nid uid : Z) (raw : option string)
    (summary' tag' : option string) : option (World * Note) :=
  match get_note w nid uid with
  | None => None
  | Some note =>
      let note := match raw with
                  | Some t => set_processing_status "pending" (set_raw_transcript t note)
                  | None => note
                  end in
      let note := match summary' with Some s => set_summary (Some s) note | None => note end in
      let note := match tag' with Some t => set_tag (Some t) note | None => note end in
      let note := set_updated_at (utc_now w) note in
      Some (commit_note note w, note)
  end.

Definition delete_note (w : World) (nid uid : Z) : option World :=
  match get_note w nid uid with
  | None => None
  | Some note =>
      let w := match audio_path note with
               | Some p => if negb (String.eqb p "") then set_files (files w ∖ {[p]}) w else w
               | None => w
               end in
      Some (set_notes (delete nid (notes w)) w)
  end.

(** The ordering of [ORDER BY distance ASC]. *)
Definition dist_le (env : Env) (q : list byte) (a b : Note) : Prop :=
  (vec_distance_cosine env (default [] (embedding a)) q
   <= vec_distance_cosine env (default [] (embedding b)) q)%Z.

Global Instance dist_le_dec env q : RelDecision (dist_le env q).
Proof. intros a b. unfold dist_le. apply _. Defined.

(** SQLite [LIMIT n]: a negative limit means no limit. *)
Definition sql_limit {A} (limit : Z) (xs : list A) : list A :=
  if Z.ltb limit 0 then xs else take (Z.to_nat limit) xs.

(** The [WHERE] clause of [get_similar_notes]. *)
Definition similar_where (nid uid : Z) (q : list byte) (r : Note) : bool :=
  Z.eqb (user_id r) uid && negb (archived r) &&
  match embedding r with Some e => Nat.eqb (length e) (length q) | None => false end &&
  negb (Z.eqb (note_id r) nid).

(** [Note.model_validate(dict(row._mapping))] on a row of the raw [SELECT]
    of [get_similar_notes] or [search_notes_semantic]: neither selects
    [notification_timestamp] nor [archived], which take the model's
    defaults [None] and [False]. *)
Definition from_search_row (r : Note) : Note :=
  mkNote (note_id r) (user_id r) (raw_transcript r) (summary r) (tag r) None
    (audio_path r) (embedding r) (processing_status r) (error_message r) false
    (created_at r) (updated_at r).

Definition get_similar_notes (env : Env) (w : World) (nid uid limit : Z)
    : option (list Note) :=
  match get_note w nid uid with
  | None => None
  | Some note =>
      match embedding note with
      | None | Some [] => Some []           (* if not note.embedding: return [] *)
      | Some q =>
          let rows := filter (fun r => similar_where nid uid q r = true)
                        (snd <$> map_to_list (notes w)) in
          Some (from_search_row <$> sql_limit limit (merge_sort (dist_le env q) rows))
      end
  end.

(* ------------------------------------------------------------------ *)
(** ** [POST /api/notes/{note_id}/retry] ([app/api/routes/notes.py]) *)

Inductive http_status := HTTP_202 | HTTP_400 | HTTP_404.

(** The handler up to its response; the returned flag says whether
    [reprocess_note] was queued as a background task. *)
Definition retry_failed_note (w : World) (nid uid : Z) : http_status * World * bool :=
  match get_note w nid uid with
  | None => (HTTP_404, w, false)
  | Some note =>
      if negb (String.eqb (processing_status note) "failed") then (HTTP_400, w, false)
      else
        let note := set_error_message None (set_processing_status "processing" note) in
        let w := commit_note note w in
        (HTTP_202, EventManager.broadcast uid (status_event (note_id note)) "processing" w, true)
  end.

(** The request followed by its background tasks (run after the response). *)
Definition retry_and_run (env : Env) (w : World) (nid uid : Z) : http_status * World :=
  match retry_failed_note w nid uid with
  | (st, w', true) => (st, reprocess_note env nid w')
  | (st, w', false) => (st, w')
  end.

(* ------------------------------------------------------------------ *)
(** ** [app/tasks/notification_tasks.py] *)

(** The [AttributeError] raised by [user_settings.homeassistant_url]:
    [UserSettings] has no Home Assistant columns, and pydantic's
    [__getattr__] raises for a name that is neither a field nor a private
    attribute. *)
Definition no_homeassistant_url : string :=
  "'UserSettings' object has no attribute 'homeassistant_url'".

(** [send_note_notification(note_id)]: [Ok tt] when it returns, [Err msg]
    when it raises.  The first line of the [if not all([...])] check reads
    [user_settings.homeassistant_url], which raises before anything else of
    the function runs, so the Home Assistant call is never reached. *)
Definition send_note_notification (env : Env) (w : World) (nid : Z) : result unit :=
  match notes w !! nid with
  | None => Ok tt                                  (* "Note ... not found" *)
  | Some note =>
      match user_settings env (user_id note) with
      | None => Ok tt                              (* "User settings not found" *)
      | Some _ => Err no_homeassistant_url
      end
  end.

(* ------------------------------------------------------------------ *)
(** ** More of [NoteService] *)

(** [note.archived = b] *)
Definition set_archived (b : bool) (n : Note) : Note :=
  mkNote (note_id n) (user_id n) (raw_transcript n) (summary n) (tag n)
    (notification_timestamp n) (audio_path n) (embedding n) (processing_status n)
    (error_message n) b (created_at n) (updated_at n).

(** The id SQLite gives a new row of an [INTEGER PRIMARY KEY] table: one
    more than the largest id in use, 1 for an empty table.  (The random
    choice SQLite falls back to once the largest id is 2^63 - 1 is left out.) *)
Definition next_rowid (m : gmap Z Note) : Z :=
  match map_to_list m with
  | [] => 1
  | (k, _) :: kvs => Z.succ (foldr (fun kv acc => Z.max kv.1 acc) k kvs)
  end.

(** [create_note]: the column defaults of [Note] fill the other fields. *)
Definition create_note (w : World) (uid : Z) (raw : string) (audio : option string)
    : World * Note :=
  let note := mkNote (next_rowid (notes w)) uid raw None None None audio None
                "pending" None false (utc_now w) (utc_now w) in
  (commit_note note w, note).

Definition archive_note (w : World) (nid uid : Z) : option (World * Note) :=
  match get_note w nid uid with
  | None => None
  | Some note =>
      let note := set_updated_at (utc_now w) (set_archived true note) in
      Some (commit_note note w, note)
  end.

Definition unarchive_note (w : World) (nid uid : Z) : option (World * Note) :=
  match get_note w nid uid with
  | None => None
  | Some note =>
      let note := set_updated_at (utc_now w) (set_archived false note) in
      Some (commit_note note w, note)
  end.

(** SQLite [OFFSET n]: a negative offset counts as zero. *)
Definition sql_offset {A} (skip : Z) (xs : list A) : list A :=
  drop (Z.to_nat skip) xs.

(** [ORDER BY created_at DESC] *)
Definition created_desc (a b : Note) : Prop := (created_at b <= created_at a)%Z.

Global Instance created_desc_dec : RelDecision created_desc.
Proof. intros a b. unfold created_desc. apply _. Defined.

(** [list_notes]: the page and the total count of the user's unarchived notes. *)
Definition list_notes (w : World) (uid skip limit : Z) : list Note * nat :=
  let rows := filter (fun r => (Z.eqb (user_id r) uid && negb (archived r)) = true)
                (snd <$> map_to_list (notes w)) in
  (sql_limit limit (sql_offset skip (merge_sort created_desc rows)), length rows).

(** SQL values of the sortable columns. *)
Inductive sql_value : Type :=
  | SqlNull
  | SqlInt (z : Z)
  | SqlText (s : string).

Definition sql_text (s : option string) : sql_value :=
  match s with Some t => SqlText t | None => SqlNull end.

(** SQLite's order: NULL first, then numbers, then text (BINARY collation,
    byte by byte). *)
Definition sql_value_le (a b : sql_value) : bool :=
  match a, b with
  | SqlNull, _ => true
  | SqlInt _, SqlNull => false
  | SqlInt x, SqlInt y => Z.leb x y
  | SqlInt _, SqlText _ => true
  | SqlText _, SqlNull => false
  | SqlText _, SqlInt _ => false
  | SqlText x, SqlText y => negb (bool_decide (String.compare x y = Gt))
  end.

(** [valid_sort_columns.get(sort_by, Note.created_at)] *)
Definition sort_column (sort_by : string) (n : Note) : sql_value :=
  if String.eqb sort_by "updated_at" then SqlInt (updated_at n)
  else if String.eqb sort_by "summary" then sql_text (summary n)
  else if String.eqb sort_by "tag" then sql_text (tag n)
  else if String.eqb sort_by "status" then SqlText (processing_status n)
  else SqlInt (created_at n).

Definition sort_le (sort_by sort_order : string) (a b : Note) : Prop :=
  if String.eqb sort_order "desc"
  then sql_value_le (sort_column sort_by b) (sort_column sort_by a) = true
  else sql_value_le (sort_column sort_by a) (sort_column sort_by b) = true.

Global Instance sort_le_dec sort_by sort_order : RelDecision (sort_le sort_by sort_order).
Proof. intros a b. unfold sort_le. destruct (String.eqb sort_order "desc"); apply _. Defined.

(** A UTF-8 continuation byte ([10xxxxxx]). *)
Definition is_utf8_cont (c : Ascii.ascii) : bool :=
  (128 <=? Ascii.nat_of_ascii c)%nat && (Ascii.nat_of_ascii c <? 192)%nat.

Fixpoint skip_cont (s : string) : string :=
  match s with
  | String c s' => if is_utf8_cont c then skip_cont s' else s
  | EmptyString => EmptyString
  end.

(** The wildcards of a LIKE pattern: [%] and [_]. *)
Definition like_any : Ascii.ascii := Ascii.ascii_of_nat 37.
Definition like_one : Ascii.ascii := Ascii.ascii_of_nat 95.

(** SQLite's [x LIKE pattern] (no ESCAPE clause): [%] matches any run of
    characters, [_] exactly one character (one UTF-8 sequence), and other
    characters match with ASCII case folded. *)
Fixpoint like (p s : string) {struct p} : bool :=
  match p with
  | EmptyString => match s with EmptyString => true | String _ _ => false end
  | String c p' =>
      if Ascii.eqb c like_any then
        (fix go (s : string) : bool :=
           like p' s || match s with EmptyString => false | String _ s' => go s' end) s
      else
        match s with
        | EmptyString => false
        | String d s' =>
            if Ascii.eqb c like_one then like p' (skip_cont s')
            else Ascii.eqb (lower_ascii c) (lower_ascii d) && like p' s'
        end
  end.

(** The [conditions] of [list_notes_advanced].  A column compared with
    [NULL] is not true, so [Note.summary.like(...)] fails on a NULL summary. *)
Definition advanced_where (uid : Z) (search tag' status : option string)
    (include_archived archived_only : bool) (date_from date_to : option Z)
    (r : Note) : bool :=
  Z.eqb (user_id r) uid &&
  (if archived_only then archived r
   else if include_archived then true else negb (archived r)) &&
  (if truthy tag' then bool_decide (tag r = tag') else true) &&
  (if truthy status then bool_decide (Some (processing_status r) = status) else true) &&
  (match search with
   | Some s =>
       if negb (String.eqb s "") then
         let search_term := "%" ++ s ++ "%" in
         match summary r with Some x => like search_term x | None => false end
         || like search_term (raw_transcript r)
       else true
   | None => true
   end) &&
  (match date_from with Some d => Z.leb d (created_at r) | None => true end) &&
  (match date_to with Some d => Z.leb (created_at r) d | None => true end).

Definition list_notes_advanced (w : World) (uid : Z) (search tag' status : option string)
    (include_archived archived_only : bool) (date_from date_to : option Z)
    (sort_by sort_order : string) (page per_page : Z) : list Note * nat :=
  let page := Z.max 1 page in
  let per_page := Z.min 100 (Z.max 1 per_page) in
  let skip := ((page - 1) * per_page)%Z in
  let rows := filter (fun r => advanced_where uid search tag' status include_archived
                                 archived_only date_from date_to r = true)
                (snd <$> map_to_list (notes w)) in
  (sql_limit per_page (sql_offset skip (merge_sort (sort_le sort_by sort_order) rows)),
   length rows).

(** [_log_note_not_found]: [true] when [get_note] raises [NotFoundError]. *)
Definition _log_note_not_found (w : World) (nid uid : Z) : bool :=
  match get_note w nid uid with Some _ => false | None => true end.

(** One iteration of the comprehension of [bulk_archive_notes]: the id is
    checked, then archived (the [None] branch is not reached after the check). *)
Definition bulk_archive_step (uid : Z) (acc : World * list Note) (nid : Z)
    : World * list Note :=
  let '(w, out) := acc in
  if _log_note_not_found w nid uid then (w, out)
  else match archive_note w nid uid with
       | Some (w', n) => (w', out ++ [n])%list
       | None => (w, out)
       end.

Definition bulk_archive_notes (w : World) (note_ids : list Z) (uid : Z)
    : World * list Note :=
  foldl (bulk_archive_step uid) (w, []) note_ids.

Definition bulk_unarchive_step (uid : Z) (acc : World * list Note) (nid : Z)
    : World * list Note :=
  let '(w, out) := acc in
  if _log_note_not_found w nid uid then (w, out)
  else match unarchive_note w nid uid with
       | Some (w', n) => (w', out ++ [n])%list
       | None => (w, out)
       end.

Definition bulk_unarchive_notes (w : World) (note_ids : list Z) (uid : Z)
    : World * list Note :=
  foldl (bulk_unarchive_step uid) (w, []) note_ids.



(** The [WHERE] clause of [search_notes_semantic]. *)
Definition search_where (uid : Z) (q : list byte) (r : Note) : bool :=
  Z.eqb (user_id r) uid && negb (archived r) &&
  match embedding r with Some e => Nat.eqb (length e) (length q) | None => false end.

Definition search_notes_semantic (env : Env) (w : World) (uid : Z) (query : string)
    (limit : Z) : result (list Note) :=
  match generate_embedding env query with
  | Err e => Err e
  | Ok q =>
      let rows := filter (fun r => search_where uid q r = true)
                    (snd <$> map_to_list (notes w)) in
      Ok (from_search_row <$> sql_limit limit (merge_sort (dist_le env q) rows))
  end.

(* ------------------------------------------------------------------ *)
(** ** More routes of [app/api/routes/notes.py] *)

(** [POST /api/upload] up to its response: the file is written under a
    fresh name, the note created, and [note-created] broadcast. *)
Definition upload_voice_note (w : World) (uid : Z) (file_path : string) : World * Note :=
  let w := set_files (files w ∪ {[file_path]}) w in
  let '(w, note) := create_note w uid "" (Some file_path) in
  (EventManager.broadcast uid "note-created" (pretty (note_id note)) w, note).

(** The upload followed by its background task [process_new_note]. *)
Definition upload_and_run (env : Env) (w : World) (uid : Z) (file_path : string) : World :=
  let '(w', note) := upload_voice_note w uid file_path in
  process_new_note env (note_id note) w'.

(** [PATCH /api/notes/{note_id}] up to its response; the flag says whether
    [reprocess_note] was queued. *)
Definition update_note_route (w : World) (nid uid : Z) (raw tag' : option string)
    : option (World * Note * bool) :=
  match update_note w nid uid raw None tag' with
  | None => None
  | Some (w', note) =>
      Some (w', note, match raw with Some _ => true | None => false end)
  end.

Definition update_and_run (env : Env) (w : World) (nid uid : Z) (raw tag' : option string)
    : option World :=
  match update_note_route w nid uid raw tag' with
  | None => None
  | Some (w', note, true) => Some (reprocess_note env (note_id note) w')
  | Some (w', _, false) => Some w'
  end.

(* ------------------------------------------------------------------ *)
(** ** Predicates used by the properties below *)

(** The string holds neither LIKE wildcard. *)
Fixpoint no_wildcards (s : string) : bool :=
  match s with
  | EmptyString => true
  | String c s' =>
      negb (Ascii.eqb c like_any) && negb (Ascii.eqb c like_one) && no_wildcards s'
  end.


(** [get_note] succeeds: the row exists and belongs to the user. *)
Definition owned (w : World) (uid x : Z) : Prop := get_note w x uid <> None.

Global Instance owned_dec w uid x : Decision (owned w uid x).
Proof. unfold owned. apply _. Defined.

(** Loop invariant of [bulk_archive_notes] after the ids [processed]. *)
Definition bulk_archive_inv (w0 : World) (uid : Z) (processed : list Z) (w : World)
    (out : list Note) : Prop :=
  ids_consistent w /\
  (forall k, owned w uid k <-> owned w0 uid k) /\
  Forall (fun n => archived n = true /\ user_id n = uid /\ note_id n ∈ processed) out /\
  length out = length (filter (owned w0 uid) processed) /\
  (forall x, x ∈ processed -> owned w0 uid x ->
     exists n, get_note w x uid = Some n /\ archived n = true) /\
  (forall k, k ∉ processed -> notes w !! k = notes w0 !! k).


(** ** Concrete fixtures *)

Definition empty_world : World := mkWorld ∅ ∅ ∅ ∅ 0 (Some ∅) [] 100 100.

(** Collaborators that all succeed: the model answers with a well-formed
    JSON object, the embedding is 8 bytes. *)
Definition ok_env : Env := mkEnv
  (fun _ => Ok "hello")
  (fun _ _ => Ok "json")
  (fun _ => Some (JObject [("summary", JStr "Buy milk"); ("tag", JStr "TODO")]))
  (fun _ => None)
  (fun _ => Ok [x01; x02; x03; x04; x05; x06; x07; x08])
  (fun _ => ["todo"; "note"; "misc"])
  (fun _ => None)
  (fun a _ => Z.of_nat (default 0%nat (Byte.to_nat <$> head a))).

(** The same collaborators, except the model's output is not valid JSON. *)
Definition bad_json_env : Env := mkEnv
  (fun _ => Ok "hello")
  (fun _ _ => Ok "not json")
  (fun _ => None)
  (fun _ => None)
  (fun _ => Ok [x01; x02; x03; x04; x05; x06; x07; x08])
  (fun _ => ["todo"; "note"; "misc"])
  (fun _ => None)
  (fun a b => Z.of_nat (length a + length b)).

(** A text note as [create_note(user_id=7, raw_transcript="buy milk")] stores it. *)
Definition text_note : Note :=
  mkNote 1 7 "buy milk" None None None None None "pending" None false 50 50.

Definition world_with (ns : list Note) : World :=
  set_notes (list_to_map (map (fun n => (note_id n, n)) ns)) empty_world.

(** A decidable proposition, settled by evaluating its decision procedure. *)
Ltac vm_decide :=
  match goal with |- ?P => apply (bool_decide_unpack P); vm_compute; reflexivity end.

(** Fixtures for the properties above. *)

(** User 7 with two open streams (queues 0 and 1). *)
Definition bus_world : World :=
  (EventManager.subscribe 7 (EventManager.subscribe 7 empty_world).1).1.

(** [text_note] with a reminder at [ts]. *)
Definition timed_note (ts : Z) : Note :=
  mkNote 1 7 "buy milk" None None (Some ts) None None "pending" None false 50 50.

(** The note as [archive_note(1, 7)] leaves it in [world_with [text_note]]. *)
Definition archived_text_note : Note := set_updated_at 100 (set_archived true text_note).

(** Collaborators that all raise. *)
Definition down_env : Env := mkEnv
  (fun _ => Err "Device not available")
  (fun _ _ => Err "Ollama unreachable")
  (fun _ => None)
  (fun _ => None)
  (fun _ => Err "Ollama unreachable")
  (fun _ => ["todo"; "note"; "misc"])
  (fun _ => None)
  (fun _ _ => 0%Z).

(** [ok_env] for users that have a [UserSettings] row with the defaults. *)
Definition settings_env : Env := mkEnv
  (transcribe_file ok_env) (ollama_generate ok_env) (json_loads ok_env)
  (fromisoformat ok_env) (generate_embedding ok_env) (custom_tags ok_env)
  (fun u => Some (mkUserSettings u "http://localhost:11434" "qwen3:4b-instruct"
                    "nomic-embed-text" None "[]"))
  (vec_distance_cosine ok_env).

(** An uploaded note whose audio file is on disk. *)
Definition audio_note : Note :=
  mkNote 3 7 "" None None None (Some "uploads/a.m4a") None "pending" None false 50 50.

Definition audio_world : World :=
  set_files {[ "uploads/a.m4a" ]} (world_with [audio_note]).

(** A note with neither transcript nor audio. *)
Definition blank_note : Note :=
  mkNote 4 7 "" None None None None None "pending" None false 50 50.

(** A processed note with a reminder. *)
Definition stamped_note : Note :=
  mkNote 2 7 "dentist at noon" (Some "Dentist") (Some "todo") (Some 500%Z) None
    (Some [x01; x00; x00; x00; x00; x00; x00; x00]) "completed" None false 60 60.

Definition ok_summary : SummaryResult := mkSummaryResult (Some "Buy milk") (Some "todo") None.

Definition ok_embedding : list byte := [x01; x02; x03; x04; x05; x06; x07; x08].

(* ================================================================== *)
(** * Properties *)

(** ** Missing rows *)

(** C10: when no row has the given id (e.g. the note was deleted before the
    background task ran), [process_new_note] and [reprocess_note] return
    normally and leave the whole world unchanged: no row written, no event
    broadcast. *)
Theorem tasks_missing_note_noop (env : Env) (nid : Z) (w : World) :
  notes w !! nid = None ->
  process_new_note env nid w = w /\ reprocess_note env nid w = w.
Proof.
  intros Hnone. unfold process_new_note, reprocess_note. rewrite Hnone. split; reflexivity.
Qed.

Lemma tasks_missing_note_noop_witness :
  notes (world_with [text_note]) !! 2%Z = None /\
  process_new_note ok_env 2 (world_with [text_note]) = world_with [text_note] /\
  reprocess_note ok_env 2 (world_with [text_note]) = world_with [text_note].
Proof.
  assert (H : notes (world_with [text_note]) !! 2%Z = None) by reflexivity.
  split; [exact H | exact (tasks_missing_note_noop ok_env 2 _ H)].
Defined.

(** ** Deferred notifications *)

(** C8: [_schedule_notification_if_needed] either leaves the world as it is,
    or the note has a timestamp strictly later than the evaluation time
    [datetime.now()] and the only change is the job for that timestamp in
    the scheduler.  So a timestamp at or before now schedules nothing. *)
Theorem schedule_only_strictly_future (n : Note) (w : World) :
  _schedule_notification_if_needed n w = w \/
  exists ts jobs,
    notification_timestamp n = Some ts /\ (local_now w < ts)%Z /\
    scheduler w = Some jobs /\
    _schedule_notification_if_needed n w =
      set_scheduler (Some (<[notification_job_id (note_id n) := mkJob ts (note_id n)]> jobs)) w.
Proof.
  unfold _schedule_notification_if_needed.
  destruct (notification_timestamp n) as [ts|] eqn:Hts; [|left; reflexivity].
  destruct (Z.ltb (local_now w) ts) eqn:Hlt; [|left; reflexivity].
  destruct (scheduler w) as [jobs|] eqn:Hs; [|left; reflexivity].
  right. exists ts, jobs. apply Z.ltb_lt in Hlt. auto.
Qed.

(** ** Event bus *)

(** C9: a broadcast to a user with no registered queue changes no queue
    (it only writes its log line) and raises nothing (the function is
    total); a subscriber that connects afterwards has received only the
    keep-alive ping, and a later broadcast reaches it with only the later
    message. *)
Theorem broadcast_without_subscribers_not_retained
    (w : World) (u : Z) (e d e2 d2 : string) :
  user_queues w !! u = None ->
  let w1 := EventManager.broadcast u e d w in
  user_queues w1 = user_queues w /\ queue_store w1 = queue_store w /\
  next_queue w1 = next_queue w /\
  let '(w2, q) := EventManager.subscribe u w1 in
  EventManager.frames w2 q = [EventManager.ping] /\
  EventManager.frames (EventManager.broadcast u e2 d2 w2) q =
    [EventManager.ping; EventManager.sse_message e2 d2].
Proof.
  intros Hnone. cbn zeta.
  assert (Hb : EventManager.broadcast u e d w = EventManager.log_call u e d w).
  { unfold EventManager.broadcast. simpl. rewrite Hnone. reflexivity. }
  rewrite Hb. simpl.
  split; [reflexivity|]. split; [reflexivity|]. split; [reflexivity|].
  unfold EventManager.subscribe. simpl. rewrite Hnone. simpl.
  unfold EventManager.frames, EventManager.broadcast. simpl.
  rewrite !lookup_insert_eq. simpl. split; [reflexivity|].
  unfold EventManager.queue_put. simpl. rewrite !lookup_insert_eq. reflexivity.
Qed.

Lemma broadcast_without_subscribers_not_retained_witness :
  user_queues empty_world !! 7%Z = None /\
  EventManager.frames
    (EventManager.subscribe 7 (EventManager.broadcast 7 "note-created" "1" empty_world)).1
    (EventManager.subscribe 7 (EventManager.broadcast 7 "note-created" "1" empty_world)).2
  = [EventManager.ping].
Proof.
  assert (H : user_queues empty_world !! 7%Z = None) by reflexivity.
  split; [exact H|].
  pose proof (broadcast_without_subscribers_not_retained empty_world 7
                "note-created" "1" "note-deleted" "1" H) as [_ [_ [_ Hs]]].
  simpl in Hs. destruct Hs as [Hs _]. exact Hs.
Defined.

(** ** Pipeline run of a text note *)

Lemma broadcast_calls_broadcast (u : Z) (e d : string) (w : World) :
  broadcast_calls (EventManager.broadcast u e d w) = (broadcast_calls w ++ [(u, e, d)])%list.
Proof.
  unfold EventManager.broadcast. simpl.
  destruct (user_queues w !! u); reflexivity.
Qed.

Lemma broadcast_notes (u : Z) (e d : string) (w : World) :
  notes (EventManager.broadcast u e d w) = notes w.
Proof.
  unfold EventManager.broadcast. simpl.
  destruct (user_queues w !! u); reflexivity.
Qed.

Lemma schedule_broadcast_calls (n : Note) (w : World) :
  broadcast_calls (_schedule_notification_if_needed n w) = broadcast_calls w.
Proof.
  unfold _schedule_notification_if_needed.
  destruct (notification_timestamp n) as [ts|]; [|reflexivity].
  destruct (Z.ltb (local_now w) ts); [|reflexivity].
  destruct (scheduler w); reflexivity.
Qed.

Lemma schedule_notes (n : Note) (w : World) :
  notes (_schedule_notification_if_needed n w) = notes w.
Proof.
  unfold _schedule_notification_if_needed.
  destruct (notification_timestamp n) as [ts|]; [|reflexivity].
  destruct (Z.ltb (local_now w) ts); [|reflexivity].
  destruct (scheduler w); reflexivity.
Qed.

Lemma process_note_ai_fields (env : Env) (a b : Note) :
  user_id a = user_id b -> raw_transcript a = raw_transcript b ->
  _process_note_ai env a = _process_note_ai env b.
Proof. intros Hu Hr. unfold _process_note_ai. rewrite Hu, Hr. reflexivity. Qed.

Lemma commit_note_broadcast_calls (n : Note) (w : World) :
  broadcast_calls (commit_note n w) = broadcast_calls w.
Proof. reflexivity. Qed.

Lemma commit_note_notes (n : Note) (w : World) :
  notes (commit_note n w) = <[note_id n := n]> (notes w).
Proof. reflexivity. Qed.

Lemma broadcast_utc_now (u : Z) (e d : string) (w : World) :
  utc_now (EventManager.broadcast u e d w) = utc_now w.
Proof.
  unfold EventManager.broadcast. simpl.
  destruct (user_queues w !! u); reflexivity.
Qed.

Lemma commit_note_utc_now (n : Note) (w : World) :
  utc_now (commit_note n w) = utc_now w.
Proof. reflexivity. Qed.

Global Hint Rewrite broadcast_utc_now commit_note_utc_now broadcast_calls_broadcast broadcast_notes schedule_broadcast_calls
  schedule_notes commit_note_broadcast_calls commit_note_notes : world_db.

(** Unfold the monadic code down to a world expression. *)
Ltac run_pm :=
  unfold try_except, process_new_note_body, reprocess_note_body,
    enrich_and_complete, fail_note;
  unfold mbind, PM_bind, mret, PM_ret;
  cbn -[EventManager.broadcast _schedule_notification_if_needed _process_note_ai
        commit_note].

(** The row [enrich_and_complete] commits. *)
Definition completed_note (now : Z) (r : AIResult) (n : Note) : Note :=
  set_updated_at now
    (set_error_message None
       (set_processing_status "completed"
          (set_embedding (Some (ai_embedding r))
             (set_notification_timestamp (ai_notification_timestamp r)
                (set_tag (ai_tag r) (set_summary (ai_summary r) n)))))).

Ltac note_fields :=
  cbn [note_id user_id raw_transcript summary tag notification_timestamp
    audio_path embedding processing_status error_message archived created_at
    updated_at set_raw_transcript set_summary set_tag set_notification_timestamp
    set_embedding set_processing_status set_error_message set_updated_at
    completed_note].

(** A [process_new_note] run on a text note whose enrichment succeeds. *)
Lemma process_new_note_text_run (env : Env) (w : World) (n : Note) (r : AIResult) :
  notes w !! note_id n = Some n ->
  audio_path n = None ->
  raw_transcript n <> "" ->
  _process_note_ai env n = Ok r ->
  let w' := process_new_note env (note_id n) w in
  broadcast_calls w' =
    (broadcast_calls w ++
     [(user_id n, status_event (note_id n), "transcribing");
      (user_id n, status_event (note_id n), "processing");
      (user_id n, status_event (note_id n), "completed");
      (user_id n, processed_event (note_id n), "completed")])%list /\
  notes w' !! note_id n =
    Some (completed_note (utc_now w) r
            (set_processing_status "processing" (set_processing_status "transcribing" n))).
Proof.
  intros Hrow Haudio Hraw Hai. cbn zeta.
  unfold process_new_note. rewrite Hrow.
  run_pm.
  rewrite Haudio. apply String.eqb_neq in Hraw. rewrite Hraw.
  run_pm.
  rewrite (process_note_ai_fields env _ n), Hai by reflexivity.
  run_pm.
  autorewrite with world_db.
  cbn [note_id user_id set_updated_at set_error_message set_processing_status
    set_embedding set_notification_timestamp set_tag set_summary].
  split.
  - rewrite <- !app_assoc. reflexivity.
  - rewrite lookup_insert_eq. reflexivity.
Qed.

(** A [reprocess_note] run on a note with a transcript whose enrichment succeeds. *)
Lemma reprocess_note_run (env : Env) (w : World) (n : Note) (r : AIResult) :
  notes w !! note_id n = Some n ->
  raw_transcript n <> "" ->
  _process_note_ai env n = Ok r ->
  let w' := reprocess_note env (note_id n) w in
  broadcast_calls w' =
    (broadcast_calls w ++
     [(user_id n, status_event (note_id n), "processing");
      (user_id n, status_event (note_id n), "completed");
      (user_id n, processed_event (note_id n), "completed")])%list /\
  notes w' !! note_id n =
    Some (completed_note (utc_now w) r (set_processing_status "processing" n)).
Proof.
  intros Hrow Hraw Hai. cbn zeta.
  unfold reprocess_note. rewrite Hrow.
  apply String.eqb_neq in Hraw. rewrite Hraw.
  run_pm.
  rewrite (process_note_ai_fields env _ n), Hai by reflexivity.
  run_pm.
  autorewrite with world_db.
  cbn [note_id user_id set_updated_at set_error_message set_processing_status
    set_embedding set_notification_timestamp set_tag set_summary].
  split.
  - rewrite <- !app_assoc. reflexivity.
  - rewrite lookup_insert_eq. reflexivity.
Qed.

(** C2 (as the code does it): a note with a nonempty transcript and no
    audio path, whose enrichment succeeds, is driven by [process_new_note]
    through [transcribing], [processing] and [completed] (the transcription
    call itself is skipped and the transcript kept); the broadcasts are
    exactly three [note-status] events with these states and one
    [note-processed] event. *)
Theorem text_note_run_passes_transcribing (env : Env) (w : World) (n : Note)
    (r : AIResult) :
  notes w !! note_id n = Some n ->
  audio_path n = None ->
  raw_transcript n <> "" ->
  _process_note_ai env n = Ok r ->
  let w' := process_new_note env (note_id n) w in
  broadcast_calls w' =
    (broadcast_calls w ++
     [(user_id n, status_event (note_id n), "transcribing");
      (user_id n, status_event (note_id n), "processing");
      (user_id n, status_event (note_id n), "completed");
      (user_id n, processed_event (note_id n), "completed")])%list /\
  exists n', notes w' !! note_id n = Some n' /\
    processing_status n' = "completed" /\ error_message n' = None /\
    raw_transcript n' = raw_transcript n.
Proof.
  intros Hrow Haudio Hraw Hai. cbn zeta.
  destruct (process_new_note_text_run env w n r Hrow Haudio Hraw Hai) as [Hb Hn].
  split; [exact Hb|].
  eexists. split; [exact Hn|]. note_fields. auto.
Qed.

(** The AI result [ok_env] produces for ["buy milk"]. *)
Definition ok_ai : AIResult :=
  mkAIResult (Some "Buy milk") (Some "todo") None [x01; x02; x03; x04; x05; x06; x07; x08].

Lemma text_note_run_passes_transcribing_witness :
  notes (world_with [text_note]) !! note_id text_note = Some text_note /\
  audio_path text_note = None /\ raw_transcript text_note <> "" /\
  _process_note_ai ok_env text_note = Ok ok_ai /\
  broadcast_calls (process_new_note ok_env (note_id text_note) (world_with [text_note])) =
    [(7%Z, status_event 1, "transcribing"); (7%Z, status_event 1, "processing");
     (7%Z, status_event 1, "completed"); (7%Z, processed_event 1, "completed")].
Proof.
  assert (H1 : notes (world_with [text_note]) !! note_id text_note = Some text_note)
    by (vm_compute; reflexivity).
  assert (H2 : audio_path text_note = None) by reflexivity.
  assert (H3 : raw_transcript text_note <> "") by (vm_compute; discriminate).
  assert (H4 : _process_note_ai ok_env text_note = Ok ok_ai) by (vm_compute; reflexivity).
  split; [exact H1|]. split; [exact H2|]. split; [exact H3|]. split; [exact H4|].
  exact (proj1 (text_note_run_passes_transcribing ok_env _ text_note ok_ai H1 H2 H3 H4)).
Defined.

(** C2 as stated fails: running [process_new_note] on the text note
    ["buy milk"] broadcasts the [transcribing] state, right after committing
    it to the row. *)
Lemma text_note_enters_transcribing :
  (7%Z, status_event 1, "transcribing")
    ∈ broadcast_calls (process_new_note ok_env 1 (world_with [text_note])).
Proof. vm_compute. left. Qed.



(** ** Unparseable model output *)

Lemma generate_summary_and_tag_invalid_json (env : Env) (transcript resp : string)
    (tags : list string) :
  ollama_generate env transcript tags = Ok resp ->
  json_loads env resp = None ->
  generate_summary_and_tag env transcript tags = Ok (mkSummaryResult (Some "") None None).
Proof. intros Hg Hj. unfold generate_summary_and_tag. rewrite Hg, Hj. reflexivity. Qed.

Lemma process_note_ai_invalid_json (env : Env) (n : Note) (resp : string)
    (emb : list byte) :
  ollama_generate env (raw_transcript n) (custom_tags env (user_id n)) = Ok resp ->
  json_loads env resp = None ->
  generate_embedding env (raw_transcript n) = Ok emb ->
  _process_note_ai env n = Ok (mkAIResult (Some "") None None emb).
Proof.
  intros Hg Hj He. unfold _process_note_ai.
  rewrite (generate_summary_and_tag_invalid_json env _ resp _ Hg Hj), He. reflexivity.
Qed.

(** C4 (as the code does it): when the model's output is not valid JSON,
    [generate_summary_and_tag] does not raise but returns the summary [""],
    no tag and no notification time; when the embedding call then succeeds,
    a pipeline run on a note with a nonempty transcript ([reprocess_note],
    or [process_new_note] for a text note) completes the note with these
    defaulted values and no error message. *)
Theorem invalid_json_completes_with_defaults (env : Env) (w : World) (n : Note)
    (resp : string) (emb : list byte) :
  notes w !! note_id n = Some n ->
  raw_transcript n <> "" ->
  ollama_generate env (raw_transcript n) (custom_tags env (user_id n)) = Ok resp ->
  json_loads env resp = None ->
  generate_embedding env (raw_transcript n) = Ok emb ->
  generate_summary_and_tag env (raw_transcript n) (custom_tags env (user_id n))
    = Ok (mkSummaryResult (Some "") None None) /\
  (exists n', notes (reprocess_note env (note_id n) w) !! note_id n = Some n' /\
     processing_status n' = "completed" /\ error_message n' = None /\
     summary n' = Some "" /\ tag n' = None /\ notification_timestamp n' = None /\
     embedding n' = Some emb) /\
  (audio_path n = None ->
   exists n', notes (process_new_note env (note_id n) w) !! note_id n = Some n' /\
     processing_status n' = "completed" /\ error_message n' = None /\
     summary n' = Some "" /\ tag n' = None /\ notification_timestamp n' = None /\
     embedding n' = Some emb).
Proof.
  intros Hrow Hraw Hg Hj He.
  pose proof (process_note_ai_invalid_json env n resp emb Hg Hj He) as Hai.
  split; [exact (generate_summary_and_tag_invalid_json env _ resp _ Hg Hj)|].
  split.
  - destruct (reprocess_note_run env w n _ Hrow Hraw Hai) as [_ Hn].
    eexists. split; [exact Hn|]. note_fields. auto 10.
  - intros Haudio.
    destruct (process_new_note_text_run env w n _ Hrow Haudio Hraw Hai) as [_ Hn].
    eexists. split; [exact Hn|]. note_fields. auto 10.
Qed.

Lemma invalid_json_completes_with_defaults_witness :
  notes (world_with [text_note]) !! note_id text_note = Some text_note /\
  raw_transcript text_note <> "" /\
  ollama_generate bad_json_env "buy milk" ["todo"; "note"; "misc"] = Ok "not json" /\
  json_loads bad_json_env "not json" = None /\
  generate_embedding bad_json_env "buy milk" = Ok [x01; x02; x03; x04; x05; x06; x07; x08] /\
  generate_summary_and_tag bad_json_env "buy milk" ["todo"; "note"; "misc"]
    = Ok (mkSummaryResult (Some "") None None).
Proof.
  assert (H1 : notes (world_with [text_note]) !! note_id text_note = Some text_note)
    by (vm_compute; reflexivity).
  assert (H2 : raw_transcript text_note <> "") by (vm_compute; discriminate).
  assert (H3 : ollama_generate bad_json_env (raw_transcript text_note)
                 (custom_tags bad_json_env (user_id text_note)) = Ok "not json")
    by reflexivity.
  assert (H4 : json_loads bad_json_env "not json" = None) by reflexivity.
  assert (H5 : generate_embedding bad_json_env (raw_transcript text_note)
                 = Ok [x01; x02; x03; x04; x05; x06; x07; x08]) by reflexivity.
  split; [exact H1|]. split; [exact H2|]. split; [exact H3|].
  split; [exact H4|]. split; [exact H5|].
  exact (proj1 (invalid_json_completes_with_defaults bad_json_env _ text_note
                  "not json" _ H1 H2 H3 H4 H5)).
Defined.

(** C4 as stated fails: with output that is not JSON, the summary step
    returns defaults instead of raising, and [process_new_note] leaves the
    text note [completed] (not [failed]) with an empty summary and no tag. *)
Lemma invalid_json_does_not_fail :
  generate_summary_and_tag bad_json_env "buy milk" ["todo"; "note"; "misc"]
    = Ok (mkSummaryResult (Some "") None None) /\
  option_map (fun n => (processing_status n, summary n, tag n, error_message n))
    (notes (process_new_note bad_json_env 1 (world_with [text_note])) !! 1%Z)
    = Some ("completed", Some "", None, None).
Proof. split; vm_compute; reflexivity. Qed.

(** ** Error message and owner edits *)

(** A note whose last run failed. *)
Definition failed_note : Note :=
  mkNote 2 7 "buy milk" None None None None None "failed"
    (Some "Ollama Error: timeout") false 50 60.

(** C1: editing the transcript of a failed note ([update_note] with a
    transcript, as [PATCH /api/notes/{id}] does) commits the row as
    [pending] while its [error_message] is still set. *)
Theorem update_note_pending_keeps_error_message :
  match update_note (world_with [failed_note]) 2 7 (Some "buy oat milk") None None with
  | Some (w', n') =>
      notes w' !! 2%Z = Some n' /\ processing_status n' = "pending" /\
      error_message n' = Some "Ollama Error: timeout"
  | None => False
  end.
Proof. vm_compute. repeat split. Qed.

(** C6 (as the code does it): for a note in any state, [update_note] with
    a new transcript commits the row with status [pending], [updated_at]
    set to the current time and the new transcript; the embedding, the
    notification time (and the error message) are untouched, and the summary
    and tag are untouched unless the same call passes new values for them. *)
Theorem update_transcript_resets_pending (w : World) (nid uid : Z) (n : Note)
    (t : string) (summary' tag' : option string) :
  get_note w nid uid = Some n ->
  match update_note w nid uid (Some t) summary' tag' with
  | Some (w', n') =>
      notes w' !! note_id n = Some n' /\
      processing_status n' = "pending" /\ updated_at n' = utc_now w /\
      raw_transcript n' = t /\
      embedding n' = embedding n /\
      notification_timestamp n' = notification_timestamp n /\
      error_message n' = error_message n /\
      summary n' = match summary' with Some s => Some s | None => summary n end /\
      tag n' = match tag' with Some x => Some x | None => tag n end
  | None => False
  end.
Proof.
  intros Hget. unfold update_note. rewrite Hget.
  destruct summary' as [s|], tag' as [x|]; cbn;
    rewrite lookup_insert_eq; repeat split.
Qed.

Lemma update_transcript_resets_pending_witness :
  get_note (world_with [failed_note]) 2 7 = Some failed_note /\
  match update_note (world_with [failed_note]) 2 7 (Some "buy oat milk") None None with
  | Some (_, n') => processing_status n' = "pending"
  | None => False
  end.
Proof.
  assert (H : get_note (world_with [failed_note]) 2 7 = Some failed_note)
    by (vm_compute; reflexivity).
  split; [exact H|].
  pose proof (update_transcript_resets_pending _ 2 7 failed_note "buy oat milk" None None H)
    as Hu.
  destruct (update_note (world_with [failed_note]) 2 7 (Some "buy oat milk") None None)
    as [[w' n']|]; [|exact Hu].
  exact (proj1 (proj2 Hu)).
Defined.

(** A completed text note. *)
Definition completed_text_note : Note :=
  mkNote 1 7 "buy milk" (Some "Buy milk") (Some "todo") (Some 500%Z) None
    (Some [x01; x02; x03; x04]) "completed" None false 50 60.

(** C6 as stated fails: the edit route passes the transcript and a tag to
    the same [update_note] call, and then the tag changes. *)
Lemma update_transcript_and_tag_changes_tag :
  option_map (fun p => tag p.2)
    (update_note (world_with [completed_text_note]) 1 7 (Some "buy oat milk") None
       (Some "errand"))
  = Some (Some "errand").
Proof. vm_compute. reflexivity. Qed.

(** ** Retry *)

(** C5 (as the code does it): retrying a note in state [failed] answers
    202, commits it as [processing] with [error_message] cleared, broadcasts
    [processing] and queues [reprocess_note], whether or not a transcript is
    present; the retry never sets [transcribing].  When the transcript is
    empty, the queued [reprocess_note] then commits the note as [failed]
    with the message ["No transcript available"]. *)
Theorem retry_failed_goes_to_processing (env : Env) (w : World) (n : Note) :
  notes w !! note_id n = Some n ->
  processing_status n = "failed" ->
  let '(st, w1, queued) := retry_failed_note w (note_id n) (user_id n) in
  st = HTTP_202 /\ queued = true /\
  notes w1 !! note_id n = Some (set_error_message None (set_processing_status "processing" n)) /\
  broadcast_calls w1 =
    (broadcast_calls w ++ [(user_id n, status_event (note_id n), "processing")])%list /\
  (raw_transcript n = "" ->
   retry_and_run env w (note_id n) (user_id n) =
     (HTTP_202,
      commit_note (set_error_message (Some "No transcript available")
                     (set_processing_status "failed"
                        (set_error_message None (set_processing_status "processing" n))))
        w1)).
Proof.
  intros Hrow Hst.
  assert (Hget : get_note w (note_id n) (user_id n) = Some n).
  { unfold get_note. rewrite Hrow, Z.eqb_refl. reflexivity. }
  unfold retry_and_run, retry_failed_note. rewrite Hget, Hst. cbn.
  repeat split.
  - rewrite broadcast_notes. cbn. rewrite lookup_insert_eq. reflexivity.
  - rewrite broadcast_calls_broadcast. reflexivity.
  - intros Hraw. unfold reprocess_note.
    rewrite broadcast_notes. cbn. rewrite lookup_insert_eq. cbn.
    rewrite Hraw. reflexivity.
Qed.

(** A failed audio note whose audio file is gone and whose transcript is empty. *)
Definition failed_empty_note : Note :=
  mkNote 3 7 "" None None None (Some "uploads/a.m4a") None "failed"
    (Some "No audio file or transcript available") false 50 60.

Lemma retry_failed_goes_to_processing_witness :
  notes (world_with [failed_empty_note]) !! note_id failed_empty_note = Some failed_empty_note /\
  processing_status failed_empty_note = "failed" /\
  (retry_failed_note (world_with [failed_empty_note]) 3 7).1.1 = HTTP_202.
Proof.
  assert (H1 : notes (world_with [failed_empty_note]) !! note_id failed_empty_note
               = Some failed_empty_note) by (vm_compute; reflexivity).
  assert (H2 : processing_status failed_empty_note = "failed") by reflexivity.
  split; [exact H1|]. split; [exact H2|].
  pose proof (retry_failed_goes_to_processing ok_env _ failed_empty_note H1 H2) as Hr.
  change (note_id failed_empty_note) with 3%Z in Hr.
  change (user_id failed_empty_note) with 7%Z in Hr.
  destruct (retry_failed_note (world_with [failed_empty_note]) 3 7) as [[st w1] q].
  exact (proj1 Hr).
Defined.

(** C5 as stated fails: retrying the failed note with no transcript commits
    it as [processing] (not [transcribing]), and the run it queues ends in
    [failed] again. *)
Lemma retry_without_transcript_not_transcribing :
  option_map processing_status
    (notes (retry_failed_note (world_with [failed_empty_note]) 3 7).1.2 !! 3%Z)
    = Some "processing" /\
  option_map (fun n => (processing_status n, error_message n))
    (notes (retry_and_run ok_env (world_with [failed_empty_note]) 3 7).2 !! 3%Z)
    = Some ("failed", Some "No transcript available").
Proof. split; vm_compute; reflexivity. Qed.

(** ** Deletion *)

(** C7 (as the code does it): [delete_note] removes the row (and with it
    the stored embedding) but leaves the scheduler as it is, so a job for
    the note stays registered; when that job runs while no row has the id,
    [send_note_notification] returns without calling Home Assistant. *)
Theorem delete_leaves_job_notification_noop (env : Env) (w w' : World) (nid uid : Z) :
  delete_note w nid uid = Some w' ->
  notes w' !! nid = None /\ scheduler w' = scheduler w /\
  send_note_notification env w' nid = Ok tt.
Proof.
  unfold delete_note. destruct (get_note w nid uid) as [note|]; [|discriminate].
  intros H. injection H as <-.
  assert (Hn : notes (match audio_path note with
                      | Some p => if negb (String.eqb p "") then set_files (files w ∖ {[p]}) w else w
                      | None => w end) = notes w /\
               scheduler (match audio_path note with
                      | Some p => if negb (String.eqb p "") then set_files (files w ∖ {[p]}) w else w
                      | None => w end) = scheduler w).
  { destruct (audio_path note) as [p|]; [destruct (negb (String.eqb p ""))|]; auto. }
  destruct Hn as [Hn Hs]. cbn. rewrite Hs. split; [|split; [reflexivity|]].
  - apply lookup_delete_eq.
  - unfold send_note_notification. cbn. rewrite lookup_delete_eq. reflexivity.
Qed.

(** The completed note with a reminder job registered for it. *)
Definition world_with_job : World :=
  set_scheduler (Some {[notification_job_id 1 := mkJob 500 1]})
    (world_with [completed_text_note]).

Lemma delete_leaves_job_notification_noop_witness :
  delete_note world_with_job 1 7 =
    Some (set_notes ∅ world_with_job) /\
  send_note_notification ok_env (set_notes ∅ world_with_job) 1 = Ok tt.
Proof.
  assert (H : delete_note world_with_job 1 7 = Some (set_notes ∅ world_with_job))
    by (vm_compute; reflexivity).
  split; [exact H|].
  exact (proj2 (proj2 (delete_leaves_job_notification_noop ok_env _ _ 1 7 H))).
Defined.

(** C7 as stated fails: after deleting the note, the job
    [note_notification_1] is still registered in the scheduler. *)
Lemma delete_does_not_cancel_job :
  option_map (fun w => scheduler w) (delete_note world_with_job 1 7)
    = Some (Some {[notification_job_id 1 := mkJob 500 1]}).
Proof. vm_compute. reflexivity. Qed.

(** ** Similar notes *)

Global Instance dist_le_total (env : Env) (q : list byte) : Total (dist_le env q).
Proof. intros a b. unfold dist_le. lia. Qed.

Lemma Sorted_take {A} (R : A -> A -> Prop) (k : nat) (l : list A) :
  Sorted R l -> Sorted R (take k l).
Proof.
  revert k. induction l as [|x l IH]; intros k Hs; destruct k as [|k]; cbn; auto.
  apply Sorted_inv in Hs as [Hs Hhd]. constructor; [by apply IH|].
  destruct l as [|y l], k as [|k]; cbn; auto.
  inversion Hhd; subst. constructor. assumption.
Qed.

Lemma sql_limit_sorted {A} (R : A -> A -> Prop) (limit : Z) (l : list A) :
  Sorted R l -> Sorted R (sql_limit limit l).
Proof. unfold sql_limit. destruct (Z.ltb limit 0); [auto|apply Sorted_take]. Qed.

Lemma sql_limit_elem {A} (limit : Z) (l : list A) (x : A) :
  x ∈ sql_limit limit l -> x ∈ l.
Proof.
  unfold sql_limit. destruct (Z.ltb limit 0); [auto|].
  intros Hx. apply elem_of_take in Hx as [i [Hi _]].
  eapply list_elem_of_lookup_2. exact Hi.
Qed.

Lemma sql_limit_length {A} (limit : Z) (l : list A) :
  (0 <= limit)%Z -> (Z.of_nat (length (sql_limit limit l)) <= limit)%Z.
Proof.
  intros Hl. unfold sql_limit.
  destruct (Z.ltb_spec limit 0); [lia|]. rewrite length_take. lia.
Qed.

(** The rows read back keep the order of their embeddings' distances. *)
Lemma Sorted_from_search_row (env : Env) (q : list byte) (l : list Note) :
  Sorted (dist_le env q) l -> Sorted (dist_le env q) (from_search_row <$> l).
Proof.
  induction 1 as [|a l Hs IH Hhd]; cbn; constructor; [exact IH|].
  destruct Hhd; constructor; exact H.
Qed.

(** C3 (for a limit that is not negative): [get_similar_notes] returns at
    most [limit] notes; each is read back from a stored, unarchived row of
    the same owner as the source note (without its notification timestamp,
    which the [SELECT] leaves out), with an embedding of the same byte length
    as the source note's embedding, and an id other than the source note's;
    they come in non-decreasing [vec_distance_cosine] order from the source
    embedding. *)
Theorem similar_notes_filtered_sorted (env : Env) (w : World) (nid uid limit : Z)
    (res : list Note) :
  (0 <= limit)%Z ->
  get_similar_notes env w nid uid limit = Some res ->
  (Z.of_nat (length res) <= limit)%Z /\
  exists src, get_note w nid uid = Some src /\ user_id src = uid /\
    (forall r, r ∈ res ->
       (exists k row, notes w !! k = Some row /\ archived row = false /\
                      r = from_search_row row) /\
       user_id r = user_id src /\ archived r = false /\ note_id r <> nid /\
       notification_timestamp r = None /\
       exists e q, embedding r = Some e /\ embedding src = Some q /\
                   length e = length q) /\
    (forall q, embedding src = Some q -> Sorted (dist_le env q) res).
Proof.
  intros Hlim Hres. unfold get_similar_notes in Hres.
  destruct (get_note w nid uid) as [src|] eqn:Hget; [|discriminate].
  assert (Huid : user_id src = uid).
  { unfold get_note in Hget. destruct (notes w !! nid); [|discriminate].
    destruct (Z.eqb_spec (user_id n) uid); [|discriminate]. congruence. }
  destruct (embedding src) as [[|b q']|] eqn:Hemb.
  - injection Hres as <-. split; [cbn; lia|].
    exists src. split; [reflexivity|]. split; [exact Huid|]. split.
    + intros ? Hr. apply elem_of_nil in Hr. contradiction.
    + intros q _. constructor.
  - injection Hres as <-. set (q := b :: q') in *.
    split; [rewrite length_fmap; apply sql_limit_length; exact Hlim|].
    exists src. split; [reflexivity|]. split; [exact Huid|]. split.
    + intros r Hr. apply list_elem_of_fmap in Hr as [r0 [-> Hr]].
      apply sql_limit_elem in Hr.
      rewrite merge_sort_Permutation in Hr.
      apply list_elem_of_filter in Hr as [Hw Hin].
      apply list_elem_of_fmap in Hin as [[k r1] [Heq Hk]]. cbn in Heq. subst r1.
      apply elem_of_map_to_list in Hk. cbn in *.
      unfold similar_where in Hw.
      destruct (Z.eqb_spec (user_id r0) uid); [|discriminate].
      destruct (archived r0) eqn:Ha; [discriminate|].
      destruct (embedding r0) as [er|] eqn:He; [|cbn in Hw; discriminate].
      destruct (Nat.eqb_spec (length er) (length q)); [|cbn in Hw; discriminate].
      destruct (Z.eqb_spec (note_id r0) nid); [cbn in Hw; discriminate|].
      split; [eauto|]. split; [congruence|]. split; [reflexivity|].
      split; [assumption|]. split; [reflexivity|]. eauto.
    + intros q0 Hq0. rewrite Hemb in Hq0. injection Hq0 as <-.
      apply Sorted_from_search_row, sql_limit_sorted, Sorted_merge_sort. apply _.
  - injection Hres as <-. split; [cbn; lia|].
    exists src. split; [reflexivity|]. split; [exact Huid|]. split.
    + intros ? Hr. apply elem_of_nil in Hr. contradiction.
    + intros q Hq. congruence.
Qed.

Definition similar_row (nid uid : Z) (arch : bool) (emb : list byte) : Note :=
  mkNote nid uid "row" None None None None (Some emb) "completed" None arch 50 60.

(** The completed note 1 of user 7, three further notes of user 7 (note 3
    with a reminder at 900, note 4 with a shorter vector), a note of user 8
    and an archived note of user 7.  Note 3 comes back as [similar_row 3 ...],
    without its reminder. *)
Definition similar_world : World :=
  world_with [completed_text_note;
              similar_row 2 7 false [x09; x00; x00; x00];
              set_notification_timestamp (Some 900%Z) (similar_row 3 7 false [x03; x00; x00; x00]);
              similar_row 4 7 false [x01; x00];
              similar_row 5 8 false [x01; x00; x00; x00];
              similar_row 6 7 true [x01; x00; x00; x00]].

Definition similar_ids (limit : Z) : option (list Z) :=
  option_map (map note_id) (get_similar_notes ok_env similar_world 1 7 limit).

Lemma similar_notes_filtered_sorted_witness :
  (0 <= 5)%Z /\
  get_similar_notes ok_env similar_world 1 7 5 =
    Some [similar_row 3 7 false [x03; x00; x00; x00];
          similar_row 2 7 false [x09; x00; x00; x00]] /\
  (Z.of_nat (length [similar_row 3 7 false [x03; x00; x00; x00];
                     similar_row 2 7 false [x09; x00; x00; x00]]) <= 5)%Z.
Proof.
  assert (H0 : (0 <= 5)%Z) by lia.
  assert (H1 : get_similar_notes ok_env similar_world 1 7 5 =
    Some [similar_row 3 7 false [x03; x00; x00; x00];
          similar_row 2 7 false [x09; x00; x00; x00]]) by (vm_compute; reflexivity).
  split; [exact H0|]. split; [exact H1|].
  exact (proj1 (similar_notes_filtered_sorted ok_env similar_world 1 7 5 _ H0 H1)).
Defined.

(** C3 as stated fails for a negative limit: SQLite reads [LIMIT -1] as no
    limit, so two notes come back although the limit is [-1]. *)
Lemma similar_notes_negative_limit :
  similar_ids (-1) = Some [3%Z; 2%Z] /\ (-1 < Z.of_nat (length [3%Z; 2%Z]))%Z.
Proof. split; [vm_compute; reflexivity | cbn; lia]. Qed.

(* ------------------------------------------------------------------ *)
(** ** Further properties of the services and routes *)

Lemma foldl_queue_put (msg : string) (qs : list nat) (store : gmap nat (list string)) (q : nat) :
  NoDup qs ->
  foldl (EventManager.queue_put msg) store qs !! q =
    if bool_decide (q ∈ qs) then Some (default [] (store !! q) ++ [msg])%list
    else store !! q.
Proof.
  revert store. induction qs as [|q' qs IH]; intros store Hnd; cbn [foldl].
  - rewrite bool_decide_eq_false_2; [reflexivity|]. apply not_elem_of_nil.
  - apply NoDup_cons in Hnd as [Hq' Hnd]. rewrite IH by exact Hnd.
    unfold EventManager.queue_put.
    destruct (decide (q = q')) as [->|Hne].
    + rewrite bool_decide_eq_false_2 by exact Hq'.
      rewrite bool_decide_eq_true_2 by apply list_elem_of_here.
      rewrite lookup_insert_eq. reflexivity.
    + rewrite lookup_insert_ne by congruence.
      destruct (bool_decide (q ∈ qs)) eqn:E.
      * rewrite bool_decide_eq_true_2; [reflexivity|].
        apply bool_decide_eq_true in E. by apply list_elem_of_further.
      * rewrite bool_decide_eq_false_2; [reflexivity|].
        apply bool_decide_eq_false in E. rewrite elem_of_cons. intros [?|?]; contradiction.
Qed.

(** X1: a broadcast to a user whose queue list has no repeated handle appends the SSE frame exactly once to each of the user's queues, and leaves every other queue as it was. *)
Theorem broadcast_fans_out (w : World) (u : Z) (e d : string) (qs : list nat) (q : nat) :
  user_queues w !! u = Some qs -> NoDup qs ->
  queue_store (EventManager.broadcast u e d w) !! q =
    if bool_decide (q ∈ qs)
    then Some (default [] (queue_store w !! q) ++ [EventManager.sse_message e d])%list
    else queue_store w !! q.
Proof.
  intros Hu Hnd. unfold EventManager.broadcast. simpl. rewrite Hu. simpl.
  apply foldl_queue_put, Hnd.
Qed.

Lemma broadcast_fans_out_witness :
  user_queues bus_world !! 7%Z = Some [0%nat; 1%nat] /\ NoDup [0%nat; 1%nat] /\
  queue_store (EventManager.broadcast 7 "note-created" "1" bus_world) !! 1%nat =
    if bool_decide (1%nat ∈ [0%nat; 1%nat])
    then Some (default [] (queue_store bus_world !! 1%nat)
                 ++ [EventManager.sse_message "note-created" "1"])%list
    else queue_store bus_world !! 1%nat.
Proof.
  assert (H1 : user_queues bus_world !! 7%Z = Some [0%nat; 1%nat]) by (vm_compute; reflexivity).
  assert (H2 : NoDup [0%nat; 1%nat]) by (vm_decide).
  split; [exact H1|]. split; [exact H2|].
  exact (broadcast_fans_out bus_world 7 "note-created" "1" _ 1 H1 H2).
Defined.

Lemma filter_neq_not_elem (q : nat) (l : list nat) :
  q ∉ l -> filter (fun x => x <> q) l = l.
Proof.
  induction l as [|x l IH]; intros Hq; [reflexivity|].
  rewrite elem_of_cons in Hq.
  rewrite filter_cons_True by (intros ->; apply Hq; left; reflexivity).
  f_equal. apply IH. intros Hin. apply Hq. right. exact Hin.
Qed.

(** X2: a subscription followed by the cancellation of that same stream restores the user's queue registry, provided a user's list is never empty and never holds the next fresh handle. *)
Theorem subscribe_unsubscribe_restores (w : World) (u : Z) :
  (forall qs, user_queues w !! u = Some qs -> qs <> [] /\ next_queue w ∉ qs) ->
  user_queues (EventManager.unsubscribe u (EventManager.subscribe u w).2
                 (EventManager.subscribe u w).1) = user_queues w.
Proof.
  intros Hfresh. unfold EventManager.subscribe, EventManager.unsubscribe. cbn.
  rewrite lookup_insert_eq.
  destruct (user_queues w !! u) as [qs|] eqn:Hu; cbn.
  - destruct (Hfresh qs eq_refl) as [Hne Hq].
    rewrite filter_app, filter_neq_not_elem by exact Hq.
    rewrite filter_cons_False by congruence. rewrite filter_nil, app_nil_r.
    destruct qs as [|x xs] eqn:Eqs; cbn.
    + contradiction.
    + rewrite insert_insert_eq. apply insert_id. exact Hu.
  - rewrite decide_False by congruence. cbn. rewrite delete_insert_eq. apply delete_id. exact Hu.
Qed.

Lemma subscribe_unsubscribe_restores_witness :
  (forall qs, user_queues (EventManager.subscribe 7 empty_world).1 !! 7%Z = Some qs ->
     qs <> [] /\ next_queue (EventManager.subscribe 7 empty_world).1 ∉ qs) /\
  user_queues
    (EventManager.unsubscribe 7
       (EventManager.subscribe 7 (EventManager.subscribe 7 empty_world).1).2
       (EventManager.subscribe 7 (EventManager.subscribe 7 empty_world).1).1) =
    user_queues (EventManager.subscribe 7 empty_world).1.
Proof.
  assert (H : forall qs, user_queues (EventManager.subscribe 7 empty_world).1 !! 7%Z = Some qs ->
     qs <> [] /\ next_queue (EventManager.subscribe 7 empty_world).1 ∉ qs).
  { intros qs Hq. vm_compute in Hq. injection Hq as <-. split; [discriminate|].
    vm_decide. }
  split; [exact H|]. exact (subscribe_unsubscribe_restores _ 7 H).
Defined.

(** X3: scheduling twice for the same note keeps a single job, under the note's job id, with the second timestamp ([replace_existing=True]). *)
Theorem schedule_replaces_existing_job (n1 n2 : Note) (w : World) (jobs : gmap string Job)
    (ts1 ts2 : Z) :
  note_id n1 = note_id n2 -> scheduler w = Some jobs ->
  notification_timestamp n1 = Some ts1 -> notification_timestamp n2 = Some ts2 ->
  (local_now w < ts1)%Z -> (local_now w < ts2)%Z ->
  scheduler (_schedule_notification_if_needed n2 (_schedule_notification_if_needed n1 w)) =
    Some (<[notification_job_id (note_id n2) := mkJob ts2 (note_id n2)]> jobs).
Proof.
  intros Hid Hs H1 H2 Hlt1 Hlt2.
  unfold _schedule_notification_if_needed. rewrite H1, H2.
  apply Z.ltb_lt in Hlt1, Hlt2. rewrite Hlt1, Hs. cbn. rewrite Hlt2. cbn.
  rewrite Hid, insert_insert_eq. reflexivity.
Qed.

Lemma schedule_replaces_existing_job_witness :
  note_id (timed_note 200) = note_id (timed_note 300) /\ scheduler empty_world = Some ∅ /\
  notification_timestamp (timed_note 200) = Some 200%Z /\
  notification_timestamp (timed_note 300) = Some 300%Z /\
  (local_now empty_world < 200)%Z /\ (local_now empty_world < 300)%Z /\
  scheduler (_schedule_notification_if_needed (timed_note 300)
               (_schedule_notification_if_needed (timed_note 200) empty_world)) =
    Some (<[notification_job_id (note_id (timed_note 300)) :=
              mkJob 300 (note_id (timed_note 300))]> ∅).
Proof.
  assert (H1 : note_id (timed_note 200) = note_id (timed_note 300)) by reflexivity.
  assert (H2 : scheduler empty_world = Some ∅) by reflexivity.
  assert (H3 : notification_timestamp (timed_note 200) = Some 200%Z) by reflexivity.
  assert (H4 : notification_timestamp (timed_note 300) = Some 300%Z) by reflexivity.
  assert (H5 : (local_now empty_world < 200)%Z) by (simpl; lia).
  assert (H6 : (local_now empty_world < 300)%Z) by (simpl; lia).
  repeat (split; [assumption|]).
  exact (schedule_replaces_existing_job _ _ _ _ _ _ H1 H2 H3 H4 H5 H6).
Defined.

(** X4: retrying a note the user owns but that is not in the failed state answers 400 and changes nothing. *)
Theorem retry_not_failed_rejected (env : Env) (w : World) (nid uid : Z) (n : Note) :
  get_note w nid uid = Some n -> processing_status n <> "failed" ->
  retry_and_run env w nid uid = (HTTP_400, w).
Proof.
  intros Hg Hst. unfold retry_and_run, retry_failed_note. rewrite Hg.
  apply String.eqb_neq in Hst. rewrite Hst. reflexivity.
Qed.

Lemma retry_not_failed_rejected_witness :
  get_note (world_with [text_note]) 1 7 = Some text_note /\
  processing_status text_note <> "failed" /\
  retry_and_run ok_env (world_with [text_note]) 1 7 = (HTTP_400, world_with [text_note]).
Proof.
  assert (H1 : get_note (world_with [text_note]) 1 7 = Some text_note) by (vm_compute; reflexivity).
  assert (H2 : processing_status text_note <> "failed") by (simpl; discriminate).
  split; [exact H1|]. split; [exact H2|].
  exact (retry_not_failed_rejected ok_env _ 1 7 _ H1 H2).
Defined.



Lemma foldr_max_ge_init (k : Z) (kvs : list (Z * Note)) :
  (k <= foldr (fun kv acc => Z.max kv.1 acc) k kvs)%Z.
Proof. induction kvs as [|kv kvs IH]; cbn; lia. Qed.

Lemma foldr_max_ge (k x : Z) (v : Note) (kvs : list (Z * Note)) :
  (x, v) ∈ kvs -> (x <= foldr (fun kv acc => Z.max kv.1 acc) k kvs)%Z.
Proof.
  induction kvs as [|[y u] kvs IH]; intros Hin; cbn.
  - exfalso. by apply not_elem_of_nil in Hin.
  - apply elem_of_cons in Hin as [Heq|Hin].
    + injection Heq as -> ->. lia.
    + specialize (IH Hin). lia.
Qed.

Lemma next_rowid_gt (m : gmap Z Note) (x : Z) (v : Note) :
  (x, v) ∈ map_to_list m -> (x < next_rowid m)%Z.
Proof.
  unfold next_rowid. destruct (map_to_list m) as [|[k u] kvs]; intros Hin.
  - by apply not_elem_of_nil in Hin.
  - apply elem_of_cons in Hin as [Heq|Hin].
    + injection Heq as Hx _. rewrite Hx. pose proof (foldr_max_ge_init k kvs). lia.
    + pose proof (foldr_max_ge k _ v kvs Hin). lia.
Qed.

Lemma next_rowid_fresh (m : gmap Z Note) : m !! next_rowid m = None.
Proof.
  destruct (m !! next_rowid m) as [v|] eqn:E; [|reflexivity].
  apply elem_of_map_to_list, next_rowid_gt in E. lia.
Qed.

(** X6: [create_note] inserts a new row under an id not used before; the note is pending, not archived, without error, summary, tag or embedding, and its owner can read it back. *)
Theorem create_note_fresh_pending (w : World) (uid : Z) (raw : string) (audio : option string) :
  let w' := (create_note w uid raw audio).1 in
  let n := (create_note w uid raw audio).2 in
  notes w !! note_id n = None /\
  notes w' = <[note_id n := n]> (notes w) /\
  get_note w' (note_id n) uid = Some n /\
  processing_status n = "pending" /\ error_message n = None /\ archived n = false /\
  embedding n = None /\ summary n = None /\ tag n = None.
Proof.
  cbn. split; [apply next_rowid_fresh|]. split; [reflexivity|].
  split; [|repeat split].
  unfold get_note. cbn. rewrite lookup_insert_eq. cbn. rewrite Z.eqb_refl. reflexivity.
Qed.

(** X7: archiving an unarchived note and then unarchiving it gives back the original note except for [updated_at], which is the evaluation time. *)
Theorem archive_unarchive_roundtrip (w : World) (nid uid : Z) (n : Note) :
  notes w !! nid = Some n -> note_id n = nid -> user_id n = uid -> archived n = false ->
  exists w1 n1 w2 n2,
    archive_note w nid uid = Some (w1, n1) /\ unarchive_note w1 nid uid = Some (w2, n2) /\
    archived n1 = true /\ n2 = set_updated_at (utc_now w) n /\
    notes w2 = <[nid := set_updated_at (utc_now w) n]> (notes w).
Proof.
  intros Hrow Hid Hu Ha.
  assert (Hg : get_note w nid uid = Some n).
  { unfold get_note. rewrite Hrow, Hu, Z.eqb_refl. reflexivity. }
  unfold archive_note. rewrite Hg.
  eexists _, _, _, _. split; [reflexivity|].
  unfold unarchive_note, get_note. cbn. rewrite Hid, lookup_insert_eq. cbn.
  rewrite Hu, Z.eqb_refl. split; [reflexivity|]. split; [reflexivity|].
  destruct n; cbn in *; subst. split; [reflexivity|].
  rewrite insert_insert_eq. reflexivity.
Qed.

Lemma archive_unarchive_roundtrip_witness :
  notes (world_with [text_note]) !! 1%Z = Some text_note /\ note_id text_note = 1%Z /\
  user_id text_note = 7%Z /\ archived text_note = false /\
  exists w1 n1 w2 n2,
    archive_note (world_with [text_note]) 1 7 = Some (w1, n1) /\
    unarchive_note w1 1 7 = Some (w2, n2) /\
    archived n1 = true /\ n2 = set_updated_at (utc_now (world_with [text_note])) text_note /\
    notes w2 = <[1%Z := set_updated_at (utc_now (world_with [text_note])) text_note]>
                 (notes (world_with [text_note])).
Proof.
  assert (H1 : notes (world_with [text_note]) !! 1%Z = Some text_note) by (vm_compute; reflexivity).
  assert (H2 : note_id text_note = 1%Z) by reflexivity.
  assert (H3 : user_id text_note = 7%Z) by reflexivity.
  assert (H4 : archived text_note = false) by reflexivity.
  repeat (split; [assumption|]).
  exact (archive_unarchive_roundtrip _ 1 7 _ H1 H2 H3 H4).
Defined.

Lemma sql_limit_sublist {A} (limit : Z) (l : list A) : sql_limit limit l `sublist_of` l.
Proof.
  unfold sql_limit. destruct (Z.ltb limit 0); [reflexivity|].
  apply sublist_take.
Qed.

Lemma sql_offset_sublist {A} (skip : Z) (l : list A) : sql_offset skip l `sublist_of` l.
Proof. unfold sql_offset. apply sublist_drop. Qed.

Lemma Sorted_drop {A} (R : A -> A -> Prop) (k : nat) (l : list A) :
  Sorted R l -> Sorted R (drop k l).
Proof.
  revert k. induction l as [|x l IH]; intros k Hs; destruct k as [|k]; cbn; auto.
  apply Sorted_inv in Hs as [Hs _]. by apply IH.
Qed.

Global Instance created_desc_total : Total created_desc.
Proof. intros a b. unfold created_desc. lia. Qed.

(** X8: [list_notes] returns only the user's unarchived notes, newest first, at most [limit] of them when the limit is not negative, and never more than the total it reports. *)
Theorem list_notes_page (w : World) (uid skip limit : Z) :
  let page := (list_notes w uid skip limit).1 in
  let total := (list_notes w uid skip limit).2 in
  Forall (fun r => user_id r = uid /\ archived r = false) page /\
  (length page <= total)%nat /\
  ((0 <= limit)%Z -> (Z.of_nat (length page) <= limit)%Z) /\
  Sorted created_desc page.
Proof.
  cbn zeta. unfold list_notes. cbn [fst snd].
  set (rows := filter _ _).
  assert (Hsub : sql_limit limit (sql_offset skip (merge_sort created_desc rows))
                   `sublist_of` merge_sort created_desc rows).
  { etrans; [apply sql_limit_sublist|apply sql_offset_sublist]. }
  split; [|split; [|split]].
  - apply Forall_forall. intros r Hr.
    assert (Hr' : r ∈ merge_sort created_desc rows) by (eapply elem_of_sublist; eauto).
    rewrite (merge_sort_Permutation created_desc rows) in Hr'. clear Hr. rename Hr' into Hr.
    apply list_elem_of_filter in Hr as [Hc _].
    apply andb_prop in Hc as [Hu Ha]. apply Z.eqb_eq in Hu.
    apply negb_true_iff in Ha. auto.
  - apply sublist_length in Hsub. rewrite (Permutation_length (merge_sort_Permutation _ _)) in Hsub.
    exact Hsub.
  - apply sql_limit_length.
  - apply sql_limit_sorted. unfold sql_offset. apply Sorted_drop, Sorted_merge_sort. apply _.
Qed.

Lemma values_perm (m : gmap Z Note) (k : Z) (v : Note) :
  m !! k = Some v -> (map_to_list m).*2 ≡ₚ v :: (map_to_list (delete k m)).*2.
Proof.
  intros Hk. rewrite <- (insert_delete_id m k v Hk) at 1.
  rewrite map_to_list_insert by apply lookup_delete_eq. reflexivity.
Qed.

Lemma values_insert_perm (m : gmap Z Note) (k : Z) (v : Note) :
  (map_to_list (<[k := v]> m)).*2 ≡ₚ v :: (map_to_list (delete k m)).*2.
Proof.
  rewrite <- insert_delete_eq.
  rewrite map_to_list_insert by apply lookup_delete_eq. reflexivity.
Qed.

(** X9: archiving one of the user's unarchived notes lowers the total reported by [list_notes] by exactly one. *)
Theorem archive_decrements_list_total (w w' : World) (nid uid skip limit : Z) (n n' : Note) :
  notes w !! nid = Some n -> note_id n = nid -> archived n = false ->
  archive_note w nid uid = Some (w', n') ->
  S (list_notes w' uid skip limit).2 = (list_notes w uid skip limit).2.
Proof.
  intros Hrow Hid Ha Harch.
  unfold archive_note, get_note in Harch. rewrite Hrow in Harch.
  destruct (Z.eqb (user_id n) uid) eqn:Hu; [|discriminate].
  injection Harch as <- <-. unfold list_notes. cbn [fst snd].
  cbn [notes commit_note set_notes note_id set_updated_at set_archived].
  rewrite Hid.
  rewrite (values_insert_perm (notes w) nid), (values_perm (notes w) nid n Hrow).
  rewrite !filter_cons. cbn. rewrite Hu, Ha. cbn.
  rewrite decide_False by discriminate. rewrite decide_True by reflexivity.
  reflexivity.
Qed.

Lemma archive_decrements_list_total_witness :
  notes (world_with [text_note]) !! 1%Z = Some text_note /\ note_id text_note = 1%Z /\
  archived text_note = false /\
  archive_note (world_with [text_note]) 1 7 =
    Some (commit_note archived_text_note (world_with [text_note]), archived_text_note) /\
  S (list_notes (commit_note archived_text_note (world_with [text_note])) 7 0 50).2 =
    (list_notes (world_with [text_note]) 7 0 50).2.
Proof.
  assert (H1 : notes (world_with [text_note]) !! 1%Z = Some text_note) by (vm_compute; reflexivity).
  assert (H2 : note_id text_note = 1%Z) by reflexivity.
  assert (H3 : archived text_note = false) by reflexivity.
  assert (H4 : archive_note (world_with [text_note]) 1 7 =
    Some (commit_note archived_text_note (world_with [text_note]), archived_text_note))
    by (vm_compute; reflexivity).
  repeat (split; [assumption|]).
  exact (archive_decrements_list_total _ _ 1 7 0 50 _ _ H1 H2 H3 H4).
Defined.

(** X10: [list_notes_advanced] returns at most [per_page] notes clamped to 1..100, never more than its total, and each returned note satisfies every filter given (owner, archive flags, tag, status, date range). *)
Theorem list_notes_advanced_page (w : World) (uid : Z) (search tag' status : option string)
    (include_archived archived_only : bool) (date_from date_to : option Z)
    (sort_by sort_order : string) (page per_page : Z) :
  let res := list_notes_advanced w uid search tag' status include_archived archived_only
               date_from date_to sort_by sort_order page per_page in
  (Z.of_nat (length res.1) <= Z.min 100 (Z.max 1 per_page))%Z /\
  (length res.1 <= res.2)%nat /\
  Forall (fun r =>
    user_id r = uid /\
    (archived_only = true -> archived r = true) /\
    (archived_only = false -> include_archived = false -> archived r = false) /\
    (forall t, tag' = Some t -> t <> "" -> tag r = Some t) /\
    (forall s, status = Some s -> s <> "" -> processing_status r = s) /\
    (forall d, date_from = Some d -> (d <= created_at r)%Z) /\
    (forall d, date_to = Some d -> (created_at r <= d)%Z)) res.1.
Proof.
  cbn zeta. unfold list_notes_advanced. cbn [fst snd].
  set (rows := filter _ _).
  set (lim := Z.min 100 (Z.max 1 per_page)).
  set (skip := ((Z.max 1 page - 1) * lim)%Z).
  assert (Hsub : sql_limit lim (sql_offset skip (merge_sort (sort_le sort_by sort_order) rows))
                   `sublist_of` merge_sort (sort_le sort_by sort_order) rows).
  { etrans; [apply sql_limit_sublist|apply sql_offset_sublist]. }
  split; [|split].
  - apply sql_limit_length. lia.
  - apply sublist_length in Hsub.
    rewrite (Permutation_length (merge_sort_Permutation _ _)) in Hsub. exact Hsub.
  - apply Forall_forall. intros r Hr.
    assert (Hr' : r ∈ merge_sort (sort_le sort_by sort_order) rows)
      by (eapply elem_of_sublist; eauto).
    rewrite (merge_sort_Permutation _ rows) in Hr'.
    apply list_elem_of_filter in Hr' as [Hc _]. unfold advanced_where in Hc.
    repeat match type of Hc with
           | (_ && _) = true => apply andb_prop in Hc as [Hc ?]
           end.
    apply Z.eqb_eq in Hc.
    split; [exact Hc|].
    split; [intros ->; assumption|].
    split; [intros -> ->; apply negb_true_iff; assumption|].
    split.
    { intros t -> Ht. cbn in *. apply String.eqb_neq in Ht. rewrite Ht in *. cbn in *.
      apply bool_decide_eq_true in H3. exact H3. }
    split.
    { intros s -> Hs. cbn in *. apply String.eqb_neq in Hs. rewrite Hs in *. cbn in *.
      apply bool_decide_eq_true in H2. congruence. }
    split.
    { intros d ->. apply Z.leb_le. assumption. }
    { intros d ->. apply Z.leb_le. assumption. }
Qed.

Lemma like_pct_unfold (q s : string) :
  like (String like_any q) s =
    like q s || match s with EmptyString => false
                | String _ s' => like (String like_any q) s' end.
Proof. destruct s; reflexivity. Qed.

Lemma like_pct (q s : string) :
  like (String like_any q) s = true <->
  exists s1 s2, s = s1 ++ s2 /\ like q s2 = true.
Proof.
  induction s as [|d s IH]; rewrite like_pct_unfold.
  - rewrite orb_false_r. split.
    + intros H. exists "", "". auto.
    + intros (s1 & s2 & Hs & Hl). destruct s1; [|discriminate].
      destruct s2; [exact Hl|discriminate].
  - rewrite orb_true_iff, IH. split.
    + intros [H|(s1 & s2 & -> & Hl)].
      * exists "", (String d s). auto.
      * exists (String d s1), s2. auto.
    + intros (s1 & s2 & Hs & Hl). destruct s1 as [|d' s1].
      * left. change ("" ++ s2) with s2 in Hs. subst. exact Hl.
      * right. injection Hs as -> ->. exists s1, s2. auto.
Qed.

Lemma like_lit_unfold (c d : Ascii.ascii) (q s : string) :
  Ascii.eqb c like_any = false -> Ascii.eqb c like_one = false ->
  like (String c q) (String d s) = Ascii.eqb (lower_ascii c) (lower_ascii d) && like q s.
Proof. intros H1 H2. cbn [like]. rewrite H1, H2. reflexivity. Qed.

Lemma like_lit_nil (c : Ascii.ascii) (q : string) :
  Ascii.eqb c like_any = false -> like (String c q) "" = false.
Proof. intros H1. cbn [like]. rewrite H1. reflexivity. Qed.

Lemma append_nil_r (s : string) : s ++ "" = s.
Proof.
  induction s as [|c s IH]; [reflexivity|].
  change (String c s ++ "") with (String c (s ++ "")). rewrite IH. reflexivity.
Qed.

Lemma like_literal_pct (p s : string) :
  no_wildcards p = true ->
  like (p ++ "%") s = true <-> exists s1 s2, s = s1 ++ s2 /\ lower p = lower s1.
Proof.
  revert s. induction p as [|c p IH]; intros s Hw.
  - change ("" ++ "%") with (String like_any "").
    rewrite like_pct. split.
    + intros _. exists "", s. auto.
    + intros _. exists s, "". rewrite append_nil_r. split; reflexivity.
  - cbn [no_wildcards] in Hw. apply andb_prop in Hw as [Hc Hw]. apply andb_prop in Hc as [H37 H95].
    apply negb_true_iff in H37, H95.
    change (String c p ++ "%") with (String c (p ++ "%")).
    destruct s as [|d s].
    + rewrite like_lit_nil by exact H37.
      split; [discriminate|]. intros (s1 & s2 & Hs & Hl).
      destruct s1; [|discriminate]. discriminate.
    + rewrite like_lit_unfold by assumption.
      rewrite andb_true_iff, IH by exact Hw. split.
      * intros [Hcd (s1 & s2 & -> & Hl)]. exists (String d s1), s2. split; [reflexivity|].
        cbn [lower]. apply Ascii.eqb_eq in Hcd. rewrite Hcd, Hl. reflexivity.
      * intros (s1 & s2 & Hs & Hl). destruct s1 as [|d' s1]; [discriminate|].
        injection Hs as -> ->. cbn [lower] in Hl. injection Hl as Hcd Hl.
        split; [apply Ascii.eqb_eq; exact Hcd|]. exists s1, s2. auto.
Qed.

(** X11: for a search term without LIKE wildcards, the pattern built by the advanced search matches a text exactly when the text contains the term, up to ASCII case. *)
Theorem like_search_term_contains (search x : string) :
  no_wildcards search = true ->
  like ("%" ++ search ++ "%") x = true <->
  exists a b c, x = a ++ b ++ c /\ lower b = lower search.
Proof.
  intros Hw. change ("%" ++ search ++ "%") with (String like_any (search ++ "%")).
  rewrite like_pct. split.
  - intros (a & r & -> & Hr). apply like_literal_pct in Hr as (b & c & -> & Hb); [|exact Hw].
    exists a, b, c. auto.
  - intros (a & b & c & -> & Hb). exists a, (b ++ c). split; [reflexivity|].
    apply like_literal_pct; [exact Hw|]. exists b, c. auto.
Qed.

Lemma like_search_term_contains_witness :
  no_wildcards "milk" = true /\
  (like ("%" ++ "milk" ++ "%") "buy MILK" = true <->
   exists a b c, "buy MILK" = a ++ b ++ c /\ lower b = lower "milk").
Proof.
  assert (H : no_wildcards "milk" = true) by reflexivity.
  split; [exact H|]. exact (like_search_term_contains "milk" "buy MILK" H).
Defined.

Lemma like_one_any (x : string) : like (String like_one "%") x = negb (String.eqb x "").
Proof.
  destruct x as [|d x]; [reflexivity|].
  change (like (String like_one "%") (String d x)) with (like (String like_any "") (skip_cont x)).
  assert (H : like (String like_any "") (skip_cont x) = true).
  { apply like_pct. exists (skip_cont x), "". rewrite append_nil_r. auto. }
  rewrite H. reflexivity.
Qed.

Lemma like_pct_one_pct (y : string) :
  like (String like_any (String like_one "%")) y = negb (String.eqb y "").
Proof.
  destruct y as [|d y]; [reflexivity|].
  rewrite like_pct_unfold, like_one_any. reflexivity.
Qed.

(** X12: the search term ['_'] is read as the LIKE wildcard for one character: it keeps exactly the notes with a non-empty summary or a non-empty transcript. *)
Theorem search_underscore_matches_nonempty (uid : Z) (include_archived archived_only : bool)
    (r : Note) :
  advanced_where uid (Some "_") None None include_archived archived_only None None r =
  advanced_where uid None None None include_archived archived_only None None r &&
  (truthy (summary r) || negb (String.eqb (raw_transcript r) "")).
Proof.
  unfold advanced_where.
  change (negb (String.eqb "_" "")) with true. cbn iota.
  change ("%" ++ "_" ++ "%") with (String like_any (String like_one "%")).
  destruct (summary r) as [x|]; cbn [truthy]; rewrite ?like_pct_one_pct;
    destruct (Z.eqb (user_id r) uid), (if archived_only then _ else _),
      (negb (String.eqb (raw_transcript r) "")); rewrite ?orb_true_r, ?orb_false_r;
    try destruct (negb (String.eqb x "")); reflexivity.
Qed.

Lemma get_note_ext (w w' : World) (k uid : Z) :
  notes w' !! k = notes w !! k -> get_note w' k uid = get_note w k uid.
Proof. intros H. unfold get_note. rewrite H. reflexivity. Qed.







Lemma get_note_some (w : World) (nid uid : Z) (n : Note) :
  get_note w nid uid = Some n -> notes w !! nid = Some n /\ user_id n = uid.
Proof.
  unfold get_note. destruct (notes w !! nid) as [m|]; [|discriminate].
  destruct (Z.eqb_spec (user_id m) uid); [|discriminate]. intros H. injection H as <-. auto.
Qed.




Lemma bulk_archive_step_inv (w0 : World) (uid : Z) (processed : list Z) (w : World)
    (out : list Note) (nid : Z) :
  bulk_archive_inv w0 uid processed w out ->
  bulk_archive_inv w0 uid (processed ++ [nid])
    (bulk_archive_step uid (w, out) nid).1 (bulk_archive_step uid (w, out) nid).2.
Proof.
  intros (Hc & Hown & Hout & Hlen & Harch & Hsame). unfold bulk_archive_step, _log_note_not_found.
  destruct (get_note w nid uid) as [n|] eqn:Hg; cbn [fst snd].
  - unfold archive_note. rewrite Hg. cbn [fst snd].
    apply get_note_some in Hg as [Hrow Hu].
    assert (Hid : note_id n = nid) by exact (Hc nid n Hrow).
    set (n' := set_updated_at (utc_now w) (set_archived true n)).
    assert (Hnotes : notes (commit_note n' w) = <[nid := n']> (notes w))
      by (cbn; rewrite Hid; reflexivity).
    assert (Hown0 : owned w0 uid nid).
    { apply Hown. unfold owned, get_note. rewrite Hrow, Hu, Z.eqb_refl. discriminate. }
    assert (Hg' : get_note (commit_note n' w) nid uid = Some n').
    { unfold get_note. rewrite Hnotes, lookup_insert_eq. cbn. rewrite Hu, Z.eqb_refl. reflexivity. }
    split; [|split; [|split; [|split; [|split]]]].
    + unfold ids_consistent. rewrite Hnotes. apply map_Forall_insert_2; [exact Hid|exact Hc].
    + intros k. rewrite <- Hown. unfold owned.
      destruct (decide (k = nid)) as [->|Hne].
      * rewrite Hg'. unfold get_note. rewrite Hrow, Hu, Z.eqb_refl. split; discriminate.
      * rewrite (get_note_ext w); [reflexivity|]. rewrite Hnotes, lookup_insert_ne by congruence.
        reflexivity.
    + apply Forall_app. split.
      * eapply Forall_impl; [exact Hout|]. intros m (Ha & Hum & Hm).
        split; [exact Ha|]. split; [exact Hum|]. apply elem_of_app. left. exact Hm.
      * apply Forall_singleton. cbn. split; [reflexivity|]. split; [exact Hu|].
        rewrite Hid. apply elem_of_app. right. apply list_elem_of_singleton. reflexivity.
    + rewrite filter_app, !length_app, Hlen. rewrite filter_cons_True by exact Hown0.
      reflexivity.
    + intros x Hx Hox. rewrite elem_of_app, list_elem_of_singleton in Hx.
      destruct (decide (x = nid)) as [->|Hne].
      * exists n'. split; [exact Hg'|reflexivity].
      * destruct Hx as [Hx| ->]; [|congruence].
        destruct (Harch x Hx Hox) as [m [Hm Ham]]. exists m. split; [|exact Ham].
        rewrite (get_note_ext w); [exact Hm|]. rewrite Hnotes, lookup_insert_ne by congruence.
        reflexivity.
    + intros k Hk. rewrite elem_of_app, list_elem_of_singleton in Hk.
      rewrite Hnotes, lookup_insert_ne by (intros ->; apply Hk; right; reflexivity).
      apply Hsame. intros HP. apply Hk. left. exact HP.
  - assert (Hno : ~ owned w0 uid nid) by (rewrite <- Hown; unfold owned; rewrite Hg; auto).
    split; [exact Hc|]. split; [exact Hown|]. split; [|split; [|split]].
    + eapply Forall_impl; [exact Hout|]. intros m (Ha & Hum & Hm).
      split; [exact Ha|]. split; [exact Hum|]. apply elem_of_app. left. exact Hm.
    + rewrite filter_app, length_app, filter_cons_False, filter_nil by exact Hno.
      cbn. lia.
    + intros x Hx Hox. rewrite elem_of_app, list_elem_of_singleton in Hx.
      destruct Hx as [Hx| ->]; [by apply Harch|contradiction].
    + intros k Hk. apply Hsame. intros HP. apply Hk, elem_of_app. left. exact HP.
Qed.

Lemma bulk_archive_foldl_inv (w0 : World) (uid : Z) (ids processed : list Z) (w : World)
    (out : list Note) :
  bulk_archive_inv w0 uid processed w out ->
  bulk_archive_inv w0 uid (processed ++ ids)
    (foldl (bulk_archive_step uid) (w, out) ids).1
    (foldl (bulk_archive_step uid) (w, out) ids).2.
Proof.
  revert processed w out. induction ids as [|nid ids IH]; intros processed w out Hinv.
  - rewrite app_nil_r. exact Hinv.
  - cbn [foldl]. apply bulk_archive_step_inv with (nid := nid) in Hinv.
    destruct (bulk_archive_step uid (w, out) nid) as [w1 o1] eqn:E. cbn [fst snd] in Hinv.
    replace (processed ++ nid :: ids)%list with ((processed ++ [nid]) ++ ids)%list
      by (rewrite <- app_assoc; reflexivity).
    apply IH, Hinv.
Qed.

(** X14: [bulk_archive_notes] archives exactly the listed notes the user owns, returns one archived note per owned listed id, and leaves every unlisted row untouched. *)
Theorem bulk_archive_notes_archives_owned (w : World) (ids : list Z) (uid : Z) :
  ids_consistent w ->
  let w' := (bulk_archive_notes w ids uid).1 in
  let out := (bulk_archive_notes w ids uid).2 in
  Forall (fun n => archived n = true /\ user_id n = uid /\ note_id n ∈ ids) out /\
  length out = length (filter (fun x => get_note w x uid <> None) ids) /\
  (forall x, x ∈ ids -> get_note w x uid <> None ->
     exists n, get_note w' x uid = Some n /\ archived n = true) /\
  (forall k, k ∉ ids -> notes w' !! k = notes w !! k).
Proof.
  intros Hc. cbn zeta. unfold bulk_archive_notes.
  destruct (bulk_archive_foldl_inv w uid ids [] w []) as (_ & _ & Hout & Hlen & Harch & Hsame).
  { split; [exact Hc|]. split; [reflexivity|]. split; [constructor|].
    split; [reflexivity|]. split.
    - intros x Hx. by apply not_elem_of_nil in Hx.
    - intros k _. reflexivity. }
  split; [exact Hout|]. split; [exact Hlen|]. split; [exact Harch|exact Hsame].
Qed.

Lemma bulk_archive_notes_archives_owned_witness :
  ids_consistent (world_with [text_note; stamped_note]) /\
  let w' := (bulk_archive_notes (world_with [text_note; stamped_note]) [1%Z; 5%Z] 7).1 in
  let out := (bulk_archive_notes (world_with [text_note; stamped_note]) [1%Z; 5%Z] 7).2 in
  Forall (fun n => archived n = true /\ user_id n = 7%Z /\ note_id n ∈ [1%Z; 5%Z]) out /\
  length out = length (filter (fun x => get_note (world_with [text_note; stamped_note]) x 7 <> None)
                         [1%Z; 5%Z]) /\
  (forall x, x ∈ [1%Z; 5%Z] -> get_note (world_with [text_note; stamped_note]) x 7 <> None ->
     exists n, get_note w' x 7 = Some n /\ archived n = true) /\
  (forall k, k ∉ [1%Z; 5%Z] -> notes w' !! k = notes (world_with [text_note; stamped_note]) !! k).
Proof.
  assert (H : ids_consistent (world_with [text_note; stamped_note]))
    by (vm_decide).
  split; [exact H|]. exact (bulk_archive_notes_archives_owned _ [1%Z; 5%Z] 7 H).
Defined.

Lemma broadcast_files (u : Z) (e d : string) (w : World) :
  files (EventManager.broadcast u e d w) = files w.
Proof. unfold EventManager.broadcast. cbn. destruct (user_queues w !! u); reflexivity. Qed.

Lemma broadcast_scheduler (u : Z) (e d : string) (w : World) :
  scheduler (EventManager.broadcast u e d w) = scheduler w.
Proof. unfold EventManager.broadcast. cbn. destruct (user_queues w !! u); reflexivity. Qed.

Lemma commit_note_files (n : Note) (w : World) : files (commit_note n w) = files w.
Proof. reflexivity. Qed.

Lemma commit_note_scheduler (n : Note) (w : World) : scheduler (commit_note n w) = scheduler w.
Proof. reflexivity. Qed.

(** X17: when transcription of an existing audio file raises, the note is marked failed with the exception text and the statuses transcribing and failed are broadcast. *)
Theorem transcription_error_fails_note (env : Env) (w : World) (n : Note) (p e : string) :
  notes w !! note_id n = Some n -> audio_path n = Some p -> p <> "" -> p ∈ files w ->
  transcribe_file env p = Err e ->
  let w' := process_new_note env (note_id n) w in
  notes w' !! note_id n =
    Some (set_updated_at (utc_now w) (set_error_message (Some e)
            (set_processing_status "failed" n))) /\
  broadcast_calls w' =
    (broadcast_calls w ++
     [(user_id n, status_event (note_id n), "transcribing");
      (user_id n, status_event (note_id n), "failed")])%list.
Proof.
  intros Hrow Hau Hp Hf Htr. cbn zeta. unfold process_new_note. rewrite Hrow.
  run_pm. rewrite Hau, broadcast_files, commit_note_files.
  apply String.eqb_neq in Hp. rewrite Hp, bool_decide_eq_true_2 by exact Hf. cbn.
  rewrite Htr. run_pm.
  autorewrite with world_db. note_fields. rewrite lookup_insert_eq.
  split; [reflexivity|]. rewrite <- app_assoc. reflexivity.
Qed.

Lemma transcription_error_fails_note_witness :
  notes audio_world !! note_id audio_note = Some audio_note /\
  audio_path audio_note = Some "uploads/a.m4a" /\ "uploads/a.m4a" <> "" /\
  "uploads/a.m4a" ∈ files audio_world /\
  transcribe_file down_env "uploads/a.m4a" = Err "Device not available" /\
  let w' := process_new_note down_env (note_id audio_note) audio_world in
  notes w' !! note_id audio_note =
    Some (set_updated_at (utc_now audio_world) (set_error_message (Some "Device not available")
            (set_processing_status "failed" audio_note))) /\
  broadcast_calls w' =
    (broadcast_calls audio_world ++
     [(user_id audio_note, status_event (note_id audio_note), "transcribing");
      (user_id audio_note, status_event (note_id audio_note), "failed")])%list.
Proof.
  assert (H1 : notes audio_world !! note_id audio_note = Some audio_note) by (vm_compute; reflexivity).
  assert (H2 : audio_path audio_note = Some "uploads/a.m4a") by reflexivity.
  assert (H3 : "uploads/a.m4a" <> "") by discriminate.
  assert (H4 : "uploads/a.m4a" ∈ files audio_world)
    by (vm_decide).
  assert (H5 : transcribe_file down_env "uploads/a.m4a" = Err "Device not available") by reflexivity.
  repeat (split; [assumption|]).
  exact (transcription_error_fails_note down_env _ _ _ _ H1 H2 H3 H4 H5).
Defined.

(** X18: when summary or embedding generation raises during reprocessing, the note is marked failed with the exception text, processing then failed are broadcast, and no notification is scheduled. *)
Theorem reprocess_enrichment_error_fails_note (env : Env) (w : World) (n : Note) (e : string) :
  notes w !! note_id n = Some n -> raw_transcript n <> "" -> _process_note_ai env n = Err e ->
  let w' := reprocess_note env (note_id n) w in
  notes w' !! note_id n =
    Some (set_updated_at (utc_now w) (set_error_message (Some e)
            (set_processing_status "failed" n))) /\
  broadcast_calls w' =
    (broadcast_calls w ++
     [(user_id n, status_event (note_id n), "processing");
      (user_id n, status_event (note_id n), "failed")])%list /\
  scheduler w' = scheduler w.
Proof.
  intros Hrow Hraw Hai. cbn zeta. unfold reprocess_note. rewrite Hrow.
  apply String.eqb_neq in Hraw. rewrite Hraw.
  run_pm. rewrite (process_note_ai_fields env _ n), Hai by reflexivity. run_pm.
  autorewrite with world_db. note_fields. rewrite lookup_insert_eq.
  split; [reflexivity|]. split; [rewrite <- app_assoc; reflexivity|].
  repeat first [rewrite broadcast_scheduler | rewrite commit_note_scheduler]. reflexivity.
Qed.

Lemma reprocess_enrichment_error_fails_note_witness :
  notes (world_with [text_note]) !! note_id text_note = Some text_note /\
  raw_transcript text_note <> "" /\
  _process_note_ai down_env text_note = Err "Ollama unreachable" /\
  let w' := reprocess_note down_env (note_id text_note) (world_with [text_note]) in
  notes w' !! note_id text_note =
    Some (set_updated_at (utc_now (world_with [text_note]))
            (set_error_message (Some "Ollama unreachable")
               (set_processing_status "failed" text_note))) /\
  broadcast_calls w' =
    (broadcast_calls (world_with [text_note]) ++
     [(user_id text_note, status_event (note_id text_note), "processing");
      (user_id text_note, status_event (note_id text_note), "failed")])%list /\
  scheduler w' = scheduler (world_with [text_note]).
Proof.
  assert (H1 : notes (world_with [text_note]) !! note_id text_note = Some text_note)
    by (vm_compute; reflexivity).
  assert (H2 : raw_transcript text_note <> "") by (simpl; discriminate).
  assert (H3 : _process_note_ai down_env text_note = Err "Ollama unreachable")
    by (vm_compute; reflexivity).
  repeat (split; [assumption|]).
  exact (reprocess_enrichment_error_fails_note down_env _ _ _ H1 H2 H3).
Defined.

(** X19: a note with no transcript and no audio file on disk fails with the message [No audio file or transcript available]. *)
Theorem no_content_fails_note (env : Env) (w : World) (n : Note) :
  notes w !! note_id n = Some n -> raw_transcript n = "" ->
  (forall p, audio_path n = Some p -> p = "" \/ p ∉ files w) ->
  let w' := process_new_note env (note_id n) w in
  notes w' !! note_id n =
    Some (set_updated_at (utc_now w)
            (set_error_message (Some "No audio file or transcript available")
               (set_processing_status "failed" n))) /\
  broadcast_calls w' =
    (broadcast_calls w ++
     [(user_id n, status_event (note_id n), "transcribing");
      (user_id n, status_event (note_id n), "failed")])%list.
Proof.
  intros Hrow Hraw Hnone. cbn zeta. unfold process_new_note. rewrite Hrow.
  run_pm. rewrite Hraw, broadcast_files, commit_note_files.
  destruct (audio_path n) as [p|] eqn:Hau.
  - assert (Hc : (negb (String.eqb p "") && bool_decide (p ∈ files w)) = false).
    { destruct (Hnone p eq_refl) as [->|Hnf]; [reflexivity|].
      rewrite bool_decide_eq_false_2 by exact Hnf. apply andb_false_r. }
    rewrite Hc. unfold raise. run_pm.
    autorewrite with world_db. note_fields. rewrite lookup_insert_eq.
    split; [reflexivity|]. rewrite <- app_assoc. reflexivity.
  - unfold raise. run_pm.
    autorewrite with world_db. note_fields. rewrite lookup_insert_eq.
    split; [reflexivity|]. rewrite <- app_assoc. reflexivity.
Qed.

Lemma no_content_fails_note_witness :
  notes (world_with [blank_note]) !! note_id blank_note = Some blank_note /\
  raw_transcript blank_note = "" /\
  (forall p, audio_path blank_note = Some p -> p = "" \/ p ∉ files (world_with [blank_note])) /\
  let w' := process_new_note ok_env (note_id blank_note) (world_with [blank_note]) in
  notes w' !! note_id blank_note =
    Some (set_updated_at (utc_now (world_with [blank_note]))
            (set_error_message (Some "No audio file or transcript available")
               (set_processing_status "failed" blank_note))) /\
  broadcast_calls w' =
    (broadcast_calls (world_with [blank_note]) ++
     [(user_id blank_note, status_event (note_id blank_note), "transcribing");
      (user_id blank_note, status_event (note_id blank_note), "failed")])%list.
Proof.
  assert (H1 : notes (world_with [blank_note]) !! note_id blank_note = Some blank_note)
    by (vm_compute; reflexivity).
  assert (H2 : raw_transcript blank_note = "") by reflexivity.
  assert (H3 : forall p, audio_path blank_note = Some p ->
                 p = "" \/ p ∉ files (world_with [blank_note])) by (intros p Hp; discriminate Hp).
  repeat (split; [assumption|]).
  exact (no_content_fails_note ok_env _ _ H1 H2 H3).
Defined.

(** X20: an upload followed by its background task, with all collaborators succeeding, stores a completed note with the transcript, summary, tag and embedding, after the broadcasts note-created, transcribing, processing, completed and processed. *)
Theorem upload_transcribes_and_completes (env : Env) (w : World) (uid : Z) (path t : string)
    (sr : SummaryResult) (emb : list byte) :
  path <> "" -> transcribe_file env path = Ok t ->
  generate_summary_and_tag env t (custom_tags env uid) = Ok sr ->
  generate_embedding env t = Ok emb ->
  let id := next_rowid (notes w) in
  let w' := upload_and_run env w uid path in
  notes w' !! id =
    Some (mkNote id uid t (sr_summary sr) (sr_tag sr) (sr_notification_timestamp sr)
            (Some path) (Some emb) "completed" None false (utc_now w) (utc_now w)) /\
  broadcast_calls w' =
    (broadcast_calls w ++
     [(uid, "note-created", pretty id);
      (uid, status_event id, "transcribing");
      (uid, status_event id, "processing");
      (uid, status_event id, "completed");
      (uid, processed_event id, "completed")])%list.
Proof.
  intros Hp Htr Hsr Hemb. cbn zeta.
  unfold upload_and_run, upload_voice_note, create_note. cbn [fst snd note_id].
  unfold process_new_note. autorewrite with world_db. cbn [notes set_files].
  rewrite lookup_insert_eq.
  run_pm. repeat first [rewrite broadcast_files | rewrite commit_note_files].
  cbn [files set_files].
  apply String.eqb_neq in Hp. rewrite Hp, bool_decide_eq_true_2 by set_solver. cbn.
  rewrite Htr. run_pm.
  assert (Hai : forall m, user_id m = uid -> raw_transcript m = t ->
            _process_note_ai env m = Ok (mkAIResult (sr_summary sr) (sr_tag sr)
                                          (sr_notification_timestamp sr) emb)).
  { intros m Hu Ht. unfold _process_note_ai. rewrite Hu, Ht, Hsr, Hemb. reflexivity. }
  rewrite Hai by reflexivity. run_pm.
  autorewrite with world_db. note_fields. cbn [utc_now set_files].
  split.
  - rewrite lookup_insert_eq. reflexivity.
  - rewrite <- !app_assoc. reflexivity.
Qed.

Lemma upload_transcribes_and_completes_witness :
  "uploads/a.m4a" <> "" /\ transcribe_file ok_env "uploads/a.m4a" = Ok "hello" /\
  generate_summary_and_tag ok_env "hello" (custom_tags ok_env 7) = Ok ok_summary /\
  generate_embedding ok_env "hello" = Ok ok_embedding /\
  let id := next_rowid (notes empty_world) in
  let w' := upload_and_run ok_env empty_world 7 "uploads/a.m4a" in
  notes w' !! id =
    Some (mkNote id 7 "hello" (sr_summary ok_summary) (sr_tag ok_summary)
            (sr_notification_timestamp ok_summary) (Some "uploads/a.m4a") (Some ok_embedding)
            "completed" None false (utc_now empty_world) (utc_now empty_world)) /\
  broadcast_calls w' =
    (broadcast_calls empty_world ++
     [(7%Z, "note-created", pretty id);
      (7%Z, status_event id, "transcribing");
      (7%Z, status_event id, "processing");
      (7%Z, status_event id, "completed");
      (7%Z, processed_event id, "completed")])%list.
Proof.
  assert (H1 : "uploads/a.m4a" <> "") by discriminate.
  assert (H2 : transcribe_file ok_env "uploads/a.m4a" = Ok "hello") by reflexivity.
  assert (H3 : generate_summary_and_tag ok_env "hello" (custom_tags ok_env 7) = Ok ok_summary)
    by (vm_compute; reflexivity).
  assert (H4 : generate_embedding ok_env "hello" = Ok ok_embedding) by reflexivity.
  repeat (split; [assumption|]).
  exact (upload_transcribes_and_completes ok_env _ 7 _ _ _ _ H1 H2 H3 H4).
Defined.

(** X21: a PATCH that empties the transcript leaves the note failed with [No transcript available], keeps its old summary, embedding and timestamp, and broadcasts nothing. *)
Theorem patch_empty_transcript_fails (env : Env) (w : World) (nid uid : Z) (n : Note)
    (tg : option string) :
  get_note w nid uid = Some n -> note_id n = nid ->
  exists w' n',
    update_and_run env w nid uid (Some "") tg = Some w' /\
    notes w' !! nid = Some n' /\
    raw_transcript n' = "" /\ processing_status n' = "failed" /\
    error_message n' = Some "No transcript available" /\
    summary n' = summary n /\ embedding n' = embedding n /\
    notification_timestamp n' = notification_timestamp n /\
    broadcast_calls w' = broadcast_calls w.
Proof.
  intros Hg Hid.
  unfold update_and_run, update_note_route, update_note. rewrite Hg.
  cbn iota beta. unfold reprocess_note.
  destruct tg as [tg|]; note_fields; rewrite commit_note_notes; note_fields;
    rewrite lookup_insert_eq; cbn iota; note_fields; cbn [String.eqb];
    (eexists _, _; split; [reflexivity|]);
    rewrite commit_note_notes; note_fields; rewrite Hid, lookup_insert_eq;
    (split; [reflexivity|]); repeat split.
Qed.

Lemma patch_empty_transcript_fails_witness :
  get_note (world_with [stamped_note]) 2 7 = Some stamped_note /\ note_id stamped_note = 2%Z /\
  exists w' n',
    update_and_run ok_env (world_with [stamped_note]) 2 7 (Some "") (Some "note") = Some w' /\
    notes w' !! 2%Z = Some n' /\
    raw_transcript n' = "" /\ processing_status n' = "failed" /\
    error_message n' = Some "No transcript available" /\
    summary n' = summary stamped_note /\ embedding n' = embedding stamped_note /\
    notification_timestamp n' = notification_timestamp stamped_note /\
    broadcast_calls w' = broadcast_calls (world_with [stamped_note]).
Proof.
  assert (H1 : get_note (world_with [stamped_note]) 2 7 = Some stamped_note)
    by (vm_compute; reflexivity).
  assert (H2 : note_id stamped_note = 2%Z) by reflexivity.
  split; [exact H1|]. split; [exact H2|].
  exact (patch_empty_transcript_fails ok_env _ 2 7 _ (Some "note") H1 H2).
Defined.

(** X22: a PATCH with a new non-empty transcript ends with the AI's summary, tag and timestamp, whatever tag the request carried. *)
Theorem patch_transcript_replaces_tag (env : Env) (w : World) (nid uid : Z) (n : Note)
    (t : string) (tg : option string) (sr : SummaryResult) (emb : list byte) :
  get_note w nid uid = Some n -> note_id n = nid -> t <> "" ->
  generate_summary_and_tag env t (custom_tags env uid) = Ok sr ->
  generate_embedding env t = Ok emb ->
  exists w' n',
    update_and_run env w nid uid (Some t) tg = Some w' /\
    notes w' !! nid = Some n' /\
    raw_transcript n' = t /\ summary n' = sr_summary sr /\ tag n' = sr_tag sr /\
    notification_timestamp n' = sr_notification_timestamp sr /\
    embedding n' = Some emb /\ processing_status n' = "completed" /\ error_message n' = None.
Proof.
  intros Hg Hid Ht Hsr Hemb.
  unfold get_note in Hg. destruct (notes w !! nid) as [m|] eqn:Hrow; [|discriminate].
  destruct (Z.eqb_spec (user_id m) uid) as [Hu|]; [|discriminate].
  injection Hg as <-.
  set (n1 := set_updated_at (utc_now w)
               match tg with Some x => set_tag (Some x) (set_processing_status "pending" (set_raw_transcript t m))
                           | None => set_processing_status "pending" (set_raw_transcript t m) end).
  assert (Hupd : update_and_run env w nid uid (Some t) tg =
                 Some (reprocess_note env (note_id n1) (commit_note n1 w))).
  { unfold update_and_run, update_note_route, update_note, get_note.
    rewrite Hrow, Hu, Z.eqb_refl. destruct tg; reflexivity. }
  assert (Hid1 : note_id n1 = nid) by (subst n1; destruct tg; exact Hid).
  assert (Hu1 : user_id n1 = uid) by (subst n1; destruct tg; exact Hu).
  assert (Ht1 : raw_transcript n1 = t) by (subst n1; destruct tg; reflexivity).
  assert (Hai : _process_note_ai env n1 =
                Ok (mkAIResult (sr_summary sr) (sr_tag sr) (sr_notification_timestamp sr) emb)).
  { unfold _process_note_ai. rewrite Hu1, Ht1, Hsr, Hemb. reflexivity. }
  destruct (reprocess_note_run env (commit_note n1 w) n1 _ ltac:(rewrite commit_note_notes; apply lookup_insert_eq)
              ltac:(rewrite Ht1; exact Ht) Hai) as [_ Hrow'].
  rewrite Hupd. eexists _, _. split; [reflexivity|].
  rewrite <- Hid1. split; [exact Hrow'|].
  note_fields. rewrite Ht1. repeat split.
Qed.

Lemma patch_transcript_replaces_tag_witness :
  get_note (world_with [text_note]) 1 7 = Some text_note /\ note_id text_note = 1%Z /\
  "buy oat milk" <> "" /\
  generate_summary_and_tag ok_env "buy oat milk" (custom_tags ok_env 7) = Ok ok_summary /\
  generate_embedding ok_env "buy oat milk" = Ok ok_embedding /\
  exists w' n',
    update_and_run ok_env (world_with [text_note]) 1 7 (Some "buy oat milk") (Some "misc")
      = Some w' /\
    notes w' !! 1%Z = Some n' /\
    raw_transcript n' = "buy oat milk" /\ summary n' = sr_summary ok_summary /\
    tag n' = sr_tag ok_summary /\
    notification_timestamp n' = sr_notification_timestamp ok_summary /\
    embedding n' = Some ok_embedding /\ processing_status n' = "completed" /\
    error_message n' = None.
Proof.
  assert (H1 : get_note (world_with [text_note]) 1 7 = Some text_note) by (vm_compute; reflexivity).
  assert (H2 : note_id text_note = 1%Z) by reflexivity.
  assert (H3 : "buy oat milk" <> "") by discriminate.
  assert (H4 : generate_summary_and_tag ok_env "buy oat milk" (custom_tags ok_env 7) = Ok ok_summary)
    by (vm_compute; reflexivity).
  assert (H5 : generate_embedding ok_env "buy oat milk" = Ok ok_embedding) by reflexivity.
  repeat (split; [assumption|]).
  exact (patch_transcript_replaces_tag ok_env _ 1 7 _ _ (Some "misc") _ _ H1 H2 H3 H4 H5).
Defined.





(** X24: a reminder job that [_schedule_notification_if_needed] registers
    for a note whose owner has a [UserSettings] row runs [send_note_notification]
    for that note, and while the row still exists under the same owner that
    call raises [AttributeError] on [homeassistant_url]: no Home Assistant
    notification is sent. *)
Theorem scheduled_reminder_raises (env : Env) (w : World) (n : Note) (us : UserSettings) :
  user_settings env (user_id n) = Some us ->
  _schedule_notification_if_needed n w <> w ->
  exists jobs j,
    scheduler (_schedule_notification_if_needed n w) = Some jobs /\
    jobs !! notification_job_id (note_id n) = Some j /\ job_note j = note_id n /\
    forall w2 m, notes w2 !! job_note j = Some m -> user_id m = user_id n ->
      send_note_notification env w2 (job_note j) = Err no_homeassistant_url.
Proof.
  intros Hus Hch. unfold _schedule_notification_if_needed in *.
  destruct (notification_timestamp n) as [ts|]; [|contradiction].
  destruct (Z.ltb (local_now w) ts); [|contradiction].
  destruct (scheduler w) as [jobs|]; [|contradiction].
  exists (<[notification_job_id (note_id n) := mkJob ts (note_id n)]> jobs), (mkJob ts (note_id n)).
  split; [reflexivity|]. split; [apply lookup_insert_eq|]. split; [reflexivity|].
  intros w2 m Hm Hu. cbn [job_note] in *. unfold send_note_notification.
  rewrite Hm, Hu, Hus. reflexivity.
Qed.

Lemma scheduled_reminder_raises_witness :
  user_settings settings_env (user_id (timed_note 200)) =
    Some (mkUserSettings 7 "http://localhost:11434" "qwen3:4b-instruct" "nomic-embed-text"
            None "[]") /\
  _schedule_notification_if_needed (timed_note 200) empty_world <> empty_world /\
  exists jobs j,
    scheduler (_schedule_notification_if_needed (timed_note 200) empty_world) = Some jobs /\
    jobs !! notification_job_id 1 = Some j /\ job_note j = 1%Z /\
    forall w2 m, notes w2 !! job_note j = Some m -> user_id m = 7%Z ->
      send_note_notification settings_env w2 (job_note j) = Err no_homeassistant_url.
Proof.
  assert (H1 : user_settings settings_env (user_id (timed_note 200)) =
    Some (mkUserSettings 7 "http://localhost:11434" "qwen3:4b-instruct" "nomic-embed-text"
            None "[]")) by reflexivity.
  assert (H2 : _schedule_notification_if_needed (timed_note 200) empty_world <> empty_world).
  { intros H. apply (f_equal scheduler) in H. vm_compute in H. discriminate H. }
  split; [exact H1|]. split; [exact H2|].
  exact (scheduled_reminder_raises settings_env empty_world (timed_note 200) _ H1 H2).
Defined.

(** X25: every note returned by [search_notes_semantic] is an unarchived row of the user, read back without its notification timestamp. *)
Theorem semantic_search_drops_timestamps (env : Env) (w : World) (uid : Z) (query : string)
    (limit : Z) (ns : list Note) :
  search_notes_semantic env w uid query limit = Ok ns ->
  Forall (fun r =>
    notification_timestamp r = None /\ user_id r = uid /\
    exists k row, notes w !! k = Some row /\ r = from_search_row row /\
                  archived row = false) ns.
Proof.
  unfold search_notes_semantic.
  destruct (generate_embedding env query) as [q|e]; intros H; [|discriminate].
  injection H as <-. apply Forall_forall. intros r Hr.
  apply list_elem_of_fmap in Hr as [row [-> Hrow]].
  apply sql_limit_elem in Hrow.
  rewrite (merge_sort_Permutation _ _) in Hrow.
  apply list_elem_of_filter in Hrow as [Hw Hin].
  unfold search_where in Hw. apply andb_prop in Hw as [Hw _]. apply andb_prop in Hw as [Hu Ha].
  apply Z.eqb_eq in Hu. apply negb_true_iff in Ha.
  split; [reflexivity|]. split; [exact Hu|].
  apply list_elem_of_fmap in Hin as [[k row'] [Heq Hkv]]. cbn in Heq. subst row'.
  apply elem_of_map_to_list in Hkv.
  exists k, row. auto.
Qed.

Lemma semantic_search_drops_timestamps_witness :
  search_notes_semantic ok_env (world_with [text_note; stamped_note]) 7 "dentist" 5 =
    Ok [from_search_row stamped_note] /\
  Forall (fun r =>
    notification_timestamp r = None /\ user_id r = 7%Z /\
    exists k row, notes (world_with [text_note; stamped_note]) !! k = Some row /\
      r = from_search_row row /\ archived row = false) [from_search_row stamped_note].
Proof.
  assert (H : search_notes_semantic ok_env (world_with [text_note; stamped_note]) 7 "dentist" 5 =
    Ok [from_search_row stamped_note]) by (vm_compute; reflexivity).
  split; [exact H|]. exact (semantic_search_drops_timestamps ok_env _ 7 _ 5 _ H).
Defined.
